(** * PortfolioSentinel: indicator engine and scoring engine

    Shallow embedding of [indicators.py] and [scoring.py].  Python floats are
    modelled as rationals [Q]; every float division goes through [pdiv],
    which raises [ZeroDivisionError] on a zero denominator as Python does.
    Dictionaries become records whose optional fields are [option] (a key
    that is absent), and a dictionary that may be empty or missing is an
    [option] record ([None] is the falsy empty dict). *)

From Stdlib Require Import QArith Qround Qabs ZArith List Bool Lia Lqa.
Import ListNotations.
Open Scope Q_scope.

(** ** Python runtime helpers *)

Inductive exn : Type :=
| ZeroDivisionError
| AttributeError
| TypeError
| IndexError.

Inductive res (A : Type) : Type :=
| Ok (a : A)
| Err (e : exn).
Arguments Ok {A} a.
Arguments Err {A} e.

Definition bind {A B : Type} (m : res A) (k : A -> res B) : res B :=
  match m with
  | Ok a => k a
  | Err e => Err e
  end.

Notation "'let*' x ':=' m 'in' k" := (bind m (fun x => k))
  (at level 200, x name, m at level 100, k at level 200).

(** [a < b], [a <= b], [a == b] and [bool(x)] on Python numbers. *)
Definition qlt (a b : Q) : bool := negb (Qle_bool b a).
Definition qle (a b : Q) : bool := Qle_bool a b.
Definition truthy (x : Q) : bool := negb (Qeq_bool x 0).

(** [d.get(k, default)] for a key that may be absent. *)
Definition get_or {A : Type} (o : option A) (d : A) : A :=
  match o with
  | Some x => x
  | None => d
  end.

(** [a / b] on floats. *)
Definition pdiv (a b : Q) : res Q :=
  if Qeq_bool b 0 then Err ZeroDivisionError else Ok (Qred (a / b)).

(** [sum(l)]: a left fold from 0. *)
Definition py_sum (l : list Q) : Q := fold_left (fun acc x => Qred (acc + x)) l 0.

Definition qnat (n : nat) : Q := inject_Z (Z.of_nat n).
Definition qlen {A : Type} (l : list A) : Q := qnat (length l).

(** [l[-k:]] (note that [l[-0:]] is the whole list). *)
Definition tail_slice {A : Type} (k : nat) (l : list A) : list A :=
  match k with
  | O => l
  | S _ => skipn (length l - k) l
  end.

(** [l[-1]]. *)
Definition py_last {A : Type} (l : list A) : res A :=
  match l with
  | [] => Err IndexError
  | x :: _ => Ok (last l x)
  end.

(** [min(a, b)] and [max(a, b)]: the first argument wins ties. *)
Definition py_min (a b : Q) : Q := if qlt b a then b else a.
Definition py_max (a b : Q) : Q := if qlt a b then b else a.

(** [round(x, nd)]: round half to even at [nd] decimal digits. *)
Definition round_half_even (y : Q) : Z :=
  let f := Qfloor y in
  let r := y - inject_Z f in
  if qlt r (1 # 2) then f
  else if qlt (1 # 2) r then (f + 1)%Z
  else if Z.even f then f else (f + 1)%Z.

Definition py_round (nd : Z) (x : Q) : Q :=
  let s := inject_Z (10 ^ nd) in
  Qred (inject_Z (round_half_even (x * s)) / s).

(** [x ** 0.5]: the float square root, as a rational truncated to six
    decimal digits (exact on 0 and on squares of such decimals). *)
Definition float_sqrt (x : Q) : Q :=
  Qred (inject_Z (Z.sqrt (Qnum x * Zpos (Qden x) * 10 ^ 12))
        / inject_Z (Zpos (Qden x) * 10 ^ 6)).

(** ** indicators.py *)

Record Bar : Type := { close : Q; volume : option Q }.

(** [calcular_media_movil] *)
Definition calcular_media_movil (precios_cierre : list Q) (periodo : nat) : res (option Q) :=
  if (length precios_cierre <? periodo)%nat then Ok None else
  let ultimos_precios := tail_slice periodo precios_cierre in
  let* m := pdiv (py_sum ultimos_precios) (qlen ultimos_precios) in
  Ok (Some (py_round 2 m)).

(** The day-over-day changes [precios[i] - precios[i-1]]. *)
Fixpoint cambios_diarios (l : list Q) : list Q :=
  match l with
  | x :: ((y :: _) as r) => (y - x) :: cambios_diarios r
  | _ => []
  end.

Definition subida (c : Q) : Q := if qlt 0 c then c else 0.
Definition bajada (c : Q) : Q := if qlt c 0 then Qabs c else 0.

(** The loop [for i in range(periodo, len(cambios))] of [calcular_rsi],
    over the pairs [(subidas[i], bajadas[i])]. *)
Fixpoint suavizado_wilder (periodo : nat) (sb : list (Q * Q)) (avg_subida avg_bajada : Q)
  : res (Q * Q) :=
  match sb with
  | [] => Ok (avg_subida, avg_bajada)
  | (s, b) :: r =>
      let* a_s := pdiv (avg_subida * (qnat periodo - 1) + s) (qnat periodo) in
      let* a_b := pdiv (avg_bajada * (qnat periodo - 1) + b) (qnat periodo) in
      suavizado_wilder periodo r a_s a_b
  end.

(** The average gain and loss of [calcular_rsi]: seeded with
    [sum(subidas[-periodo:]) / periodo], then smoothed. *)
Definition promedios_rsi (precios_cierre : list Q) (periodo : nat) : res (Q * Q) :=
  let cambios := cambios_diarios precios_cierre in
  let subidas := map subida cambios in
  let bajadas := map bajada cambios in
  let* avg_subida := pdiv (py_sum (tail_slice periodo subidas)) (qnat periodo) in
  let* avg_bajada := pdiv (py_sum (tail_slice periodo bajadas)) (qnat periodo) in
  suavizado_wilder periodo (skipn periodo (combine subidas bajadas)) avg_subida avg_bajada.

(** [rs], then [100 - 100 / (1 + rs)] rounded to 2 decimals. *)
Definition rsi_de_promedios (avgs : Q * Q) : res (option Q) :=
  let (avg_subida, avg_bajada) := avgs in
  if Qeq_bool avg_bajada 0 then Ok (Some 100) else
  let* rs := pdiv avg_subida avg_bajada in
  let* q := pdiv 100 (1 + rs) in
  Ok (Some (py_round 2 (100 - q))).

(** [calcular_rsi] *)
Definition calcular_rsi (precios_cierre : list Q) (periodo : nat) : res (option Q) :=
  if (length precios_cierre <? periodo + 1)%nat then Ok None else
  let* avgs := promedios_rsi precios_cierre periodo in
  rsi_de_promedios avgs.

(** Reference version following the spec's words rather than the source:
    Wilder's averages seeded with the mean of the FIRST [periodo] deltas,
    then smoothed once for each later delta. *)
Definition promedios_rsi_wilder (precios_cierre : list Q) (periodo : nat) : res (Q * Q) :=
  let cambios := cambios_diarios precios_cierre in
  let subidas := map subida cambios in
  let bajadas := map bajada cambios in
  let* avg_subida := pdiv (py_sum (firstn periodo subidas)) (qnat periodo) in
  let* avg_bajada := pdiv (py_sum (firstn periodo bajadas)) (qnat periodo) in
  suavizado_wilder periodo (skipn periodo (combine subidas bajadas)) avg_subida avg_bajada.

Definition calcular_rsi_wilder (precios_cierre : list Q) (periodo : nat) : res (option Q) :=
  if (length precios_cierre <? periodo + 1)%nat then Ok None else
  let* avgs := promedios_rsi_wilder precios_cierre periodo in
  rsi_de_promedios avgs.

(** [calcular_media_movil_exponencial] *)
Definition paso_ema (multiplicador ema p : Q) : Q := Qred ((p - ema) * multiplicador + ema).

Definition calcular_media_movil_exponencial (precios : list Q) (periodo : nat) : res (option Q) :=
  if (length precios <? periodo)%nat then Ok None else
  let* multiplicador := pdiv 2 (qnat periodo + 1) in
  let* ema0 := pdiv (py_sum (firstn periodo precios)) (qnat periodo) in
  let ema := fold_left (paso_ema multiplicador) (skipn periodo precios) ema0 in
  Ok (Some (py_round 2 ema)).

(** The MACD result dict: [macd_value], [signal_value], [is_bullish]. *)
Record Macd : Type := { macd_value : Q; signal_value : Q; is_bullish : bool }.

(** One iteration [i] of the loop building [macd_series]. *)
Definition macd_point (precios_cierre : list Q) (i : nat) : res (list Q) :=
  let prefijo := firstn (S i) precios_cierre in
  let* ema12_i := calcular_media_movil_exponencial prefijo 12 in
  let* ema26_i := calcular_media_movil_exponencial prefijo 26 in
  Ok (match ema12_i, ema26_i with
      | Some a, Some b => if truthy a && truthy b then [a - b] else []
      | _, _ => []
      end).

Fixpoint concat_mapM {A B : Type} (f : A -> res (list B)) (l : list A) : res (list B) :=
  match l with
  | [] => Ok []
  | x :: r => let* ys := f x in let* zs := concat_mapM f r in Ok (ys ++ zs)
  end.

(** [for i in range(26, len(precios_cierre))]. *)
Definition macd_series (precios_cierre : list Q) : res (list Q) :=
  concat_mapM (macd_point precios_cierre) (seq 26 (length precios_cierre - 26)).

Definition macd_nulo : Macd := {| macd_value := 0; signal_value := 0; is_bullish := false |}.

(** [calcular_macd] *)
Definition calcular_macd (precios_cierre : list Q) : res Macd :=
  if (length precios_cierre <? 26)%nat then Ok macd_nulo else
  let* ema_12 := calcular_media_movil_exponencial precios_cierre 12 in
  let* ema_26 := calcular_media_movil_exponencial precios_cierre 26 in
  match ema_12, ema_26 with
  | Some e12, Some e26 =>
      let v_macd := py_round 4 (e12 - e26) in
      let* serie := macd_series precios_cierre in
      let* v_signal :=
        if (9 <=? length serie)%nat then
          let* s := calcular_media_movil_exponencial serie 9 in
          match s with
          | Some s => Ok (py_round 4 s)
          | None => Err TypeError
          end
        else Ok 0 in
      Ok {| macd_value := v_macd; signal_value := v_signal; is_bullish := qlt v_signal v_macd |}
  | _, _ => Ok macd_nulo
  end.

(** [calcular_bollinger]: the [posicion] string as an enumeration. *)
Inductive Posicion : Type := BandaSuperior | BandaMedia | BandaInferior.

Record Bollinger : Type := {
  banda_superior : Q; banda_media : Q; banda_inferior : Q; posicion : Posicion }.

Definition calcular_bollinger (precios_cierre : list Q) (periodo : nat) (desviaciones : Q)
  : res (option Bollinger) :=
  if (length precios_cierre <? periodo)%nat then Ok None else
  let ultimos := tail_slice periodo precios_cierre in
  let* precio_actual := py_last precios_cierre in
  let* media := pdiv (py_sum ultimos) (qlen ultimos) in
  let diferencias_al_cuadrado := map (fun p => Qred ((p - media) * (p - media))) ultimos in
  let* varianza := pdiv (py_sum diferencias_al_cuadrado) (qlen diferencias_al_cuadrado) in
  let desviacion_estandar := float_sqrt varianza in
  let sup := py_round 2 (media + desviaciones * desviacion_estandar) in
  let inf := py_round 2 (media - desviaciones * desviacion_estandar) in
  let pos := if qlt sup precio_actual then BandaSuperior
             else if qlt precio_actual inf then BandaInferior
             else BandaMedia in
  Ok (Some {| banda_superior := sup; banda_media := py_round 2 media;
              banda_inferior := inf; posicion := pos |}).

(** [analizar_volumen] *)
Record Volumen : Type := {
  volumen_actual : Q; volumen_promedio_30d : Q; variacion_pct : Q }.

Definition analizar_volumen (datos_historicos : list Bar) (dias_promedio : nat) : res Volumen :=
  if (length datos_historicos <? dias_promedio)%nat then
    Ok {| volumen_actual := 0; volumen_promedio_30d := 0; variacion_pct := 0 |}
  else
  let* ultimo := py_last datos_historicos in
  let v_actual := get_or (volume ultimo) 0 in
  let volumenes_30d := map (fun d => get_or (volume d) 0) (tail_slice dias_promedio datos_historicos) in
  let* volumen_promedio :=
    match volumenes_30d with
    | [] => Ok 0
    | _ => pdiv (py_sum volumenes_30d) (qlen volumenes_30d)
    end in
  let* variacion :=
    if qlt 0 volumen_promedio then
      let* q := pdiv (v_actual - volumen_promedio) volumen_promedio in Ok (q * 100)
    else Ok 0 in
  Ok {| volumen_actual := v_actual; volumen_promedio_30d := py_round 0 volumen_promedio;
        variacion_pct := py_round 2 variacion |}.

(** [calcular_zona_entrada]: the [estado] string as an enumeration;
    [soportes] holds [precio_actual], [soporte_mm200] and
    [soporte_bollinger], keys only the full dict has. *)
Inductive Estado : Type := DatosInsuficientes | ZonaEntradaActiva | EsperarRetroceso.

Record Zona : Type := {
  estado : Estado; zona_ideal_min : Q; zona_ideal_max : Q; distancia_zona_pct : Q;
  soportes : option (Q * Q * Q) }.

Definition zona_insuficiente : Zona :=
  {| estado := DatosInsuficientes; zona_ideal_min := 0; zona_ideal_max := 0;
     distancia_zona_pct := 0; soportes := None |}.

Definition calcular_zona_entrada (precios_cierre : list Q) (mm200 : option Q)
  (bollinger : option Bollinger) : res Zona :=
  let precio_actual := match precios_cierre with [] => 0 | x :: _ => last precios_cierre x end in
  match mm200, bollinger with
  | Some soporte_mm200, Some b =>
      if negb (truthy soporte_mm200) then Ok zona_insuficiente else
      let soporte_bollinger := banda_inferior b in
      let zona_min := py_round 2 (py_min soporte_mm200 soporte_bollinger) in
      let zona_max := py_round 2 (py_max soporte_mm200 soporte_bollinger) in
      let est := if qle precio_actual zona_max then ZonaEntradaActiva else EsperarRetroceso in
      let* distancia :=
        if qlt zona_max precio_actual && qlt 0 precio_actual then
          let* q := pdiv (precio_actual - zona_max) precio_actual in Ok (q * 100)
        else Ok 0 in
      Ok {| estado := est; zona_ideal_min := zona_min; zona_ideal_max := zona_max;
            distancia_zona_pct := py_round 2 distancia;
            soportes := Some (py_round 2 precio_actual, soporte_mm200, soporte_bollinger) |}
  | _, _ => Ok zona_insuficiente
  end.

(** [evaluar_riesgos]: "Bajo", "Medio", "Alto". *)
Inductive Nivel : Type := Bajo | Medio | Alto.

Record Riesgos : Type := {
  riesgo_corto_plazo : Nivel; riesgo_medio_plazo : Nivel; riesgo_largo_plazo : Nivel }.

Definition score_a_nivel (score : Z) : Nivel :=
  if (3 <=? score)%Z then Alto else if (1 <=? score)%Z then Medio else Bajo.

Definition es_banda_superior (p : Posicion) : bool :=
  match p with BandaSuperior => true | _ => false end.

(** [rsi] may be [None]; [rsi and rsi > 70] is false both on [None] and on 0. *)
Definition rsi_truthy (rsi : option Q) : bool :=
  match rsi with Some r => truthy r | None => false end.

Definition riesgo_cp_score (rsi : option Q) (volumen_variacion : Q) (bollinger_posicion : Posicion) : Z :=
  let r := get_or rsi 0 in
  ((if rsi_truthy rsi && qlt 70 r then 2
    else if rsi_truthy rsi && qlt r 30 then 1 else 0)
   + (if es_banda_superior bollinger_posicion then 2 else 0)
   + (if qlt 50 volumen_variacion then 1 else 0))%Z.

Definition riesgo_mp_score (beta : Q) (bollinger_posicion : Posicion) : Z :=
  ((if truthy beta && qlt (3 # 2) beta then 2
    else if truthy beta && qlt 1 beta then 1 else 0)
   + (if es_banda_superior bollinger_posicion then 1 else 0))%Z.

Definition riesgo_lp_score (beta : Q) : Z :=
  if truthy beta && qlt (18 # 10) beta then 2
  else if truthy beta && qlt (13 # 10) beta then 1 else 0%Z.

Definition evaluar_riesgos (beta : Q) (rsi : option Q) (volumen_variacion : Q)
  (bollinger_posicion : Posicion) : Riesgos :=
  {| riesgo_corto_plazo := score_a_nivel (riesgo_cp_score rsi volumen_variacion bollinger_posicion);
     riesgo_medio_plazo := score_a_nivel (riesgo_mp_score beta bollinger_posicion);
     riesgo_largo_plazo := score_a_nivel (riesgo_lp_score beta) |}.

(** The indicator bundle returned by [calcular_todos_indicadores]. The
    [medias_moviles] sub-dict is flattened into [mm50], [mm100], [mm200];
    the [macd] signal carries [valor_macd], [valor_señal], [es_alcista] as
    a [Macd]; the display texts are left out. *)
Record SenalMM : Type := { mm_valor : Q; precio_encima : bool }.

Inductive ZonaRsi : Type := Sobrecompra | Sobreventa | ZonaNeutra.

Record SenalRsi : Type := { rsi_valor : Q; rsi_zona : ZonaRsi }.

Record Indicadores : Type := {
  precio_actual : Q;
  mm50 : option SenalMM; mm100 : option SenalMM; mm200 : option SenalMM;
  rsi : option SenalRsi;
  macd : Macd;
  bollinger : option Bollinger;
  volumen : Volumen;
  zona_entrada : Zona;
  riesgos : Riesgos }.

Definition senal_mm (precio : Q) (mm : option Q) : option SenalMM :=
  match mm with
  | Some v => if truthy v then Some {| mm_valor := v; precio_encima := qlt v precio |} else None
  | None => None
  end.

Definition senal_rsi (r : option Q) : option SenalRsi :=
  match r with
  | Some v =>
      Some {| rsi_valor := v;
              rsi_zona := if qlt 70 v then Sobrecompra
                          else if qlt v 30 then Sobreventa else ZonaNeutra |}
  | None => None
  end.

(** [calcular_todos_indicadores]: [None] below 30 bars. *)
Definition calcular_todos_indicadores (datos_historicos : list Bar) (beta : Q)
  : res (option Indicadores) :=
  if (length datos_historicos <? 30)%nat then Ok None else
  let precios_cierre := map close datos_historicos in
  let* precio := py_last precios_cierre in
  let* v_mm50 := calcular_media_movil precios_cierre 50 in
  let* v_mm100 := calcular_media_movil precios_cierre 100 in
  let* v_mm200 := calcular_media_movil precios_cierre 200 in
  let* v_rsi := calcular_rsi precios_cierre 14 in
  let* v_macd := calcular_macd precios_cierre in
  let* v_boll := calcular_bollinger precios_cierre 20 2 in
  let* v_vol := analizar_volumen datos_historicos 30 in
  let* v_zona := calcular_zona_entrada precios_cierre v_mm200 v_boll in
  let pos := match v_boll with Some b => posicion b | None => BandaMedia end in
  Ok (Some {| precio_actual := precio;
              mm50 := senal_mm precio v_mm50;
              mm100 := senal_mm precio v_mm100;
              mm200 := senal_mm precio v_mm200;
              rsi := senal_rsi v_rsi;
              macd := v_macd;
              bollinger := v_boll;
              volumen := v_vol;
              zona_entrada := v_zona;
              riesgos := evaluar_riesgos beta v_rsi (variacion_pct v_vol) pos |}).

(** ** scoring.py *)

(** The [company_data] dict built by [data_fetcher.get_all_company_data]. *)
Record Profile : Type := { beta : option Q }.

Record Fundamentals : Type := {
  pe_ratio : option Q; price_to_book : option Q; gross_margin_5y_avg : option Q;
  sales_growth_5y : option Q; eps_growth_5y : option Q; debt_to_equity : option Q;
  payout_ratio : option Q; has_buyback : option bool }.

Record Sector : Type := {
  sector_pe : option Q; sector_pb : option Q; sector_gross_margin : option Q;
  sector_debt_to_equity : option Q }.

Record Dividends : Type := {
  dividend_yield_at_buy : option Q; dividend_growth_3y : option Q; dividend_growth_5y : option Q }.

Record SharesData : Type := { shares_outstanding : option Q; shares_trend_3y : option Q }.

Record CompanyData : Type := {
  profile : option Profile;
  fundamentals : option Fundamentals;
  sector : option Sector;
  dividends : option Dividends;
  shares_data : option SharesData }.

(** Bands of [puntuar_precio_valoracion]. *)
Definition puntos_ratio_per (ratio_per : Q) : Z :=
  if qlt ratio_per (7 # 10) then 8
  else if qlt ratio_per (9 # 10) then 6
  else if qlt ratio_per (11 # 10) then 4
  else if qlt ratio_per (13 # 10) then 2
  else 1.

Definition puntos_ratio_pb (ratio_pb : Q) : Z :=
  if qlt ratio_pb (7 # 10) then 7
  else if qlt ratio_pb (9 # 10) then 5
  else if qlt ratio_pb (11 # 10) then 4
  else if qlt ratio_pb (13 # 10) then 2
  else 1.

Definition puntuar_precio_valoracion (fundamentals : option Fundamentals)
  (sector_data : option Sector) : res Z :=
  match fundamentals, sector_data with
  | Some f, Some s =>
      let per := get_or (pe_ratio f) 0 in
      let per_sector := get_or (sector_pe s) 0 in
      let* p_per :=
        if truthy per && truthy per_sector && qlt 0 per && qlt 0 per_sector then
          let* ratio_per := pdiv per per_sector in Ok (puntos_ratio_per ratio_per)
        else Ok 4%Z in
      let pb := get_or (price_to_book f) 0 in
      let pb_sector := get_or (sector_pb s) 0 in
      let* p_pb :=
        if truthy pb && truthy pb_sector && qlt 0 pb && qlt 0 pb_sector then
          let* ratio_pb := pdiv pb pb_sector in Ok (puntos_ratio_pb ratio_pb)
        else Ok 3%Z in
      Ok (Z.min (p_per + p_pb) 15)
  | _, _ => Ok 7%Z
  end.

(** Bands of [puntuar_dividendo]. *)
Definition puntos_yield (yield_div : Q) : Z :=
  if qle 4 yield_div then 4
  else if qle (5 # 2) yield_div then 3
  else if qle (3 # 2) yield_div then 2
  else if qlt 0 yield_div then 1
  else 0.

Definition puntos_crecimiento_dividendo (crec_3y crec_5y : Q) : Z :=
  if qlt 10 crec_3y && qlt 8 crec_5y then 4
  else if qlt 5 crec_3y && qlt 3 crec_5y then 3
  else if qlt 0 crec_3y && qlt 0 crec_5y then 2
  else if qlt 0 crec_3y || qlt 0 crec_5y then 1
  else 0.

Definition puntos_payout (payout : Q) : Z :=
  if qle 30 payout && qle payout 60 then 3
  else if (qle 20 payout && qlt payout 30) || (qlt 60 payout && qle payout 75) then 2
  else if qlt 0 payout then 1
  else 0.

Definition puntuar_dividendo (dividends : option Dividends) (fundamentals : option Fundamentals) : Z :=
  match dividends with
  | None => 5
  | Some d =>
      let payout := match fundamentals with Some f => get_or (payout_ratio f) 0 | None => 0 end in
      let p_buyback :=
        match fundamentals with
        | Some f => if get_or (has_buyback f) false then 2%Z else 0%Z
        | None => 0%Z
        end in
      Z.min (puntos_yield (get_or (dividend_yield_at_buy d) 0)
             + puntos_crecimiento_dividendo (get_or (dividend_growth_3y d) 0)
                                            (get_or (dividend_growth_5y d) 0)
             + puntos_payout payout
             + p_buyback
             (* Punto extra si las acciones en circulación bajan *)
             + 1) 15
  end.

(** Bands of [puntuar_crecimiento]. *)
Definition puntos_ventas (vs5 : Q) : Z :=
  if qlt 20 vs5 then 8
  else if qlt 10 vs5 then 6
  else if qlt 5 vs5 then 4
  else if qlt 0 vs5 then 2
  else if qlt (-5) vs5 then 1
  else 0.

Definition puntos_bpa (bpa5 : Q) : Z :=
  if qlt 25 bpa5 then 7
  else if qlt 15 bpa5 then 5
  else if qlt 8 bpa5 then 4
  else if qlt 0 bpa5 then 2
  else if qlt (-5) bpa5 then 1
  else 0.

Definition puntuar_crecimiento (fundamentals : option Fundamentals) (sector_data : option Sector) : Z :=
  match fundamentals with
  | None => 7
  | Some f =>
      Z.min (puntos_ventas (get_or (sales_growth_5y f) 0)
             + puntos_bpa (get_or (eps_growth_5y f) 0)) 15
  end.

(** Bands of [puntuar_fortaleza_financiera]. *)
Definition puntos_ratio_deuda (ratio_df : Q) : Z :=
  if qlt ratio_df (1 # 2) then 8
  else if qlt ratio_df (8 # 10) then 6
  else if qlt ratio_df 1 then 5
  else if qlt ratio_df (13 # 10) then 3
  else if qlt ratio_df (18 # 10) then 2
  else 1.

Definition puntos_ratio_margen (ratio_margen : Q) : Z :=
  if qlt (13 # 10) ratio_margen then 7
  else if qlt (11 # 10) ratio_margen then 5
  else if qlt (9 # 10) ratio_margen then 4
  else if qlt (7 # 10) ratio_margen then 2
  else 1.

Definition puntuar_fortaleza_financiera (fundamentals : option Fundamentals)
  (sector_data : option Sector) : res Z :=
  match fundamentals, sector_data with
  | Some f, Some s =>
      let df := get_or (debt_to_equity f) 0 in
      let df_sector := get_or (sector_debt_to_equity s) 1 in
      let* p_df :=
        if truthy df_sector && qlt 0 df_sector then
          let* ratio_df := pdiv df df_sector in Ok (puntos_ratio_deuda ratio_df)
        else Ok 4%Z in
      let margen := get_or (gross_margin_5y_avg f) 0 in
      let margen_sector := get_or (sector_gross_margin s) 35 in
      let* p_margen :=
        if truthy margen_sector && qlt 0 margen_sector then
          let* ratio_margen := pdiv margen margen_sector in Ok (puntos_ratio_margen ratio_margen)
        else Ok 3%Z in
      Ok (Z.min (p_df + p_margen) 15)
  | _, _ => Ok 7%Z
  end.

(** Technical block. [indicadores] is [None] for a falsy value ([None] or
    the [{}] that [app.py] passes). *)
Definition encima (s : option SenalMM) : bool :=
  match s with Some s => precio_encima s | None => false end.

Definition puntuar_medias_moviles (indicadores : option Indicadores) : Z :=
  match indicadores with
  | None => 5
  | Some i =>
      ((if encima (mm50 i) then 2 else 0)
       + (if encima (mm100 i) then 3 else 0)
       + (if encima (mm200 i) then 5 else 0))%Z
  end.

Definition puntos_rsi (valor : Q) : Z :=
  if qle 30 valor && qlt valor 40 then 4
  else if qlt valor 30 then 4
  else if qle 40 valor && qle valor 60 then 3
  else if qlt 60 valor && qle valor 70 then 2
  else 1.

Definition puntos_posicion (p : Posicion) : Z :=
  match p with BandaInferior => 3 | BandaMedia => 2 | BandaSuperior => 1 end.

Definition puntuar_osciladores (indicadores : option Indicadores) : Z :=
  match indicadores with
  | None => 5
  | Some i =>
      Z.min ((match rsi i with Some r => puntos_rsi (rsi_valor r) | None => 0 end)
             + (if is_bullish (macd i) then 3 else 1)
             + (match bollinger i with Some b => puntos_posicion (posicion b) | None => 0 end))%Z
            10
  end.

Definition puntuar_volumen (indicadores : option Indicadores) : Z :=
  match indicadores with
  | None => 2
  | Some i =>
      let variacion := variacion_pct (volumen i) in
      if qlt 50 variacion then 5
      else if qlt 20 variacion then 4
      else if qlt 0 variacion then 3
      else if qlt (-20) variacion then 2
      else 1
  end.

Definition puntos_nivel (n : Nivel) : Z :=
  match n with Bajo => 3 | Medio => 2 | Alto => 0 end.

Definition puntuar_contexto_beta (indicadores : option Indicadores) : Z :=
  match indicadores with
  | None => 4
  | Some i =>
      let r := riesgos i in
      Z.min (puntos_nivel (riesgo_corto_plazo r) + puntos_nivel (riesgo_medio_plazo r)
             + puntos_nivel (riesgo_largo_plazo r)) 8
  end.

Definition puntuar_acciones_circulacion (shares : option SharesData) : Z :=
  match shares with
  | None => 3
  | Some sh =>
      let trend := get_or (shares_trend_3y sh) 0 in
      if qlt trend (-5) then 7
      else if qlt trend (-2) then 5
      else if qlt trend 0 then 4
      else if Qeq_bool trend 0 then 3
      else if qlt trend 3 then 2
      else if qlt trend 7 then 1
      else 0
  end.

(** [calcular_score] *)
Record Desglose : Type := {
  precio_valoracion : Z; dividendo_retribucion : Z; crecimiento : Z;
  fortaleza_financiera : Z; medias_moviles : Z; osciladores : Z;
  volumen_puntos : Z; contexto_beta : Z; contexto_acciones : Z }.

Record Score : Type := { score_total : Z; desglose : Desglose }.

Definition tendencia_acciones (shares : option SharesData) : Q :=
  match shares with Some sh => get_or (shares_trend_3y sh) 0 | None => 0 end.

Definition calcular_score (company_data : CompanyData) (indicadores : option Indicadores) : res Score :=
  let fund := fundamentals company_data in
  let sect := sector company_data in
  let* p_precio := puntuar_precio_valoracion fund sect in
  let p_dividendo0 := puntuar_dividendo (dividends company_data) fund in
  let p_crecimiento := puntuar_crecimiento fund sect in
  let* p_fortaleza := puntuar_fortaleza_financiera fund sect in
  let p_mm := puntuar_medias_moviles indicadores in
  let p_osciladores := puntuar_osciladores indicadores in
  let p_volumen := puntuar_volumen indicadores in
  let p_beta := puntuar_contexto_beta indicadores in
  let p_acciones := puntuar_acciones_circulacion (shares_data company_data) in
  (* Ajuste: si las acciones bajan, +1 punto al bloque dividendo *)
  let p_dividendo :=
    if qlt (tendencia_acciones (shares_data company_data)) 0
    then Z.min (p_dividendo0 + 1) 15 else p_dividendo0 in
  Ok {| score_total :=
          Z.max 1 (Z.min 100 (p_precio + p_dividendo + p_crecimiento + p_fortaleza
                              + p_mm + p_osciladores + p_volumen + p_beta + p_acciones));
        desglose := {| precio_valoracion := p_precio; dividendo_retribucion := p_dividendo;
                       crecimiento := p_crecimiento; fortaleza_financiera := p_fortaleza;
                       medias_moviles := p_mm; osciladores := p_osciladores;
                       volumen_puntos := p_volumen; contexto_beta := p_beta;
                       contexto_acciones := p_acciones |} |}%Z.

(** ** Narrative: [generar_resumen_ejecutivo], [identificar_riesgos],
    [identificar_oportunidades].  Each sentence template becomes a
    constructor carrying the numbers it formats. *)

Definition fund_get (fund : option Fundamentals) (k : Fundamentals -> option Q) : Q :=
  match fund with Some f => get_or (k f) 0 | None => 0 end.

Definition sector_get (sect : option Sector) (k : Sector -> option Q) : Q :=
  match sect with Some s => get_or (k s) 0 | None => 0 end.

Definition perfil_beta (perfil : option Profile) : Q :=
  match perfil with Some p => get_or (beta p) 1 | None => 1 end.

(** [indicadores.get("rsi", {}).get("valor", 50) if indicadores else 50]:
    the key [rsi] may hold [None], and [None.get] raises. *)
Definition valor_rsi (indicadores : option Indicadores) : res Q :=
  match indicadores with
  | None => Ok 50
  | Some i => match rsi i with Some r => Ok (rsi_valor r) | None => Err AttributeError end
  end.

(** [indicadores.get("medias_moviles", {}).get("mm200", {}).get("precio_encima", False)]:
    the key [mm200] holds [None] below 200 bars, and [None.get] raises. *)
Definition mm200_encima_de (indicadores : option Indicadores) : res bool :=
  match indicadores with
  | None => Ok false
  | Some i => match mm200 i with Some s => Ok (precio_encima s) | None => Err AttributeError end
  end.

Inductive Frase : Type :=
| Presentacion
| PerSuperior (per per_s : Q) | PerInferior (per per_s : Q)
| PbPrima (pb pb_s : Q) | PbAlineado (pb pb_s : Q)
| MargenBruto (mg5 mg_s : Q) (por_encima : bool)
| VentasDinamicas (vs5 : Q) | VentasModeradas (vs5 : Q) | VentasContraccion (vs5 : Q)
| BpaCrece (bpa5 : Q) | BpaNegativo (bpa5 : Q)
| DeudaSuperior (df df_s : Q) | DeudaConservadora (df df_s : Q)
| ProgramaRecompra
| AccionesDisminuyen (shares_out trend : Q) | AccionesAumentan (shares_out trend : Q)
| Tecnico (mm200_encima macd_alcista : bool)
| RsiSobrecompra (r : Q) | RsiSobreventa (r : Q) | RsiNeutra (r : Q)
| BetaAlta (b : Q) | BetaBaja (b : Q)
| SintesisAltaCalidad | SintesisCautela | SintesisDesafios.

Definition Parrafo : Type := list Frase.

Definition generar_resumen_ejecutivo (company_data : CompanyData) (indicadores : option Indicadores)
  (score_data : Score) : res (list Parrafo) :=
  let fund := fundamentals company_data in
  let sect := sector company_data in
  let shares := shares_data company_data in
  let score := score_total score_data in
  let per := fund_get fund pe_ratio in
  let per_s := sector_get sect sector_pe in
  let pb := fund_get fund price_to_book in
  let pb_s := sector_get sect sector_pb in
  let mg5 := fund_get fund gross_margin_5y_avg in
  let mg_s := sector_get sect sector_gross_margin in
  let vs5 := fund_get fund sales_growth_5y in
  let bpa5 := fund_get fund eps_growth_5y in
  let df := fund_get fund debt_to_equity in
  let df_s := sector_get sect sector_debt_to_equity in
  let buyback := match fund with Some f => get_or (has_buyback f) false | None => false end in
  let trend_acc := tendencia_acciones shares in
  let shares_out := match shares with Some sh => get_or (shares_outstanding sh) 0 | None => 0 end in
  let b := perfil_beta (profile company_data) in
  let* mm200_encima := mm200_encima_de indicadores in
  let* rsi_v := valor_rsi indicadores in
  let macd_alcista := match indicadores with Some i => is_bullish (macd i) | None => false end in
  let p1 :=
    Presentacion
    :: (if truthy per && truthy per_s && qlt 0 per && qlt 0 per_s then
          [if qlt per_s per then PerSuperior per per_s else PerInferior per per_s] else [])
    ++ (if truthy pb && truthy pb_s && qlt 0 pb && qlt 0 pb_s then
          [if qlt pb_s pb then PbPrima pb pb_s else PbAlineado pb pb_s] else []) in
  let p2 :=
    (if truthy mg5 && truthy mg_s then [MargenBruto mg5 mg_s (qlt mg_s mg5)] else [])
    ++ [if qlt 10 vs5 then VentasDinamicas vs5
        else if qlt 0 vs5 then VentasModeradas vs5 else VentasContraccion vs5]
    ++ [if qlt 0 bpa5 then BpaCrece bpa5 else BpaNegativo bpa5] in
  let p3 :=
    (if truthy df_s then [if qlt df_s df then DeudaSuperior df df_s else DeudaConservadora df df_s]
     else [])
    ++ (if buyback then [ProgramaRecompra] else []) in
  let p4 :=
    if truthy shares_out then
      [[if qlt trend_acc 0 then AccionesDisminuyen shares_out trend_acc
        else AccionesAumentan shares_out trend_acc]]
    else [] in
  let p5 :=
    match indicadores with
    | Some _ =>
        [Tecnico mm200_encima macd_alcista
         :: (if qlt 70 rsi_v then RsiSobrecompra rsi_v
             else if qlt rsi_v 30 then RsiSobreventa rsi_v else RsiNeutra rsi_v)
         :: (if truthy b then [if qlt 1 b then BetaAlta b else BetaBaja b] else [])]
    | None => []
    end in
  let p6 :=
    if (70 <=? score)%Z then SintesisAltaCalidad
    else if (50 <=? score)%Z then SintesisCautela else SintesisDesafios in
  Ok ([p1]
      ++ (match p2 with [] => [] | _ => [p2] end)
      ++ (match p3 with [] => [] | _ => [p3] end)
      ++ p4 ++ p5 ++ [[p6]]).

Inductive Riesgo : Type :=
| RiesgoEndeudamiento (df df_s : Q)
| RiesgoPer (per per_s : Q)
| RiesgoBeta (b : Q)
| RiesgoDilucion (trend : Q)
| RiesgoRsiSobrecompra (r : Q)
| RiesgoMargenes (mg mg_s : Q)
| RiesgoZonaEntrada (dist : Q)
| IncertidumbreMacroeconomica.

(** The zone dict [indicadores.get("zona_entrada", {}) if indicadores else {}]. *)
Definition zona_de (indicadores : option Indicadores) : option Zona :=
  match indicadores with Some i => Some (zona_entrada i) | None => None end.

Definition estado_es (z : option Zona) (e : Estado) : bool :=
  match z, e with
  | Some z, EsperarRetroceso => match estado z with EsperarRetroceso => true | _ => false end
  | Some z, ZonaEntradaActiva => match estado z with ZonaEntradaActiva => true | _ => false end
  | Some z, DatosInsuficientes => match estado z with DatosInsuficientes => true | _ => false end
  | None, _ => false
  end.

(** The findings appended by [identificar_riesgos] before its fallback. *)
Definition riesgos_detectados (company_data : CompanyData) (indicadores : option Indicadores)
  : res (list Riesgo) :=
  let fund := fundamentals company_data in
  let sect := sector company_data in
  let df := fund_get fund debt_to_equity in
  let df_s := sector_get sect sector_debt_to_equity in
  let per := fund_get fund pe_ratio in
  let per_s := sector_get sect sector_pe in
  let b := perfil_beta (profile company_data) in
  let trend := tendencia_acciones (shares_data company_data) in
  let* r := valor_rsi indicadores in
  let mg := fund_get fund gross_margin_5y_avg in
  let mg_s := sector_get sect sector_gross_margin in
  let zona := zona_de indicadores in
  Ok ((if truthy df && truthy df_s && qlt (df_s * (13 # 10)) df
       then [RiesgoEndeudamiento df df_s] else [])
      ++ (if truthy per && truthy per_s && qlt (per_s * (12 # 10)) per
          then [RiesgoPer per per_s] else [])
      ++ (if truthy b && qlt (13 # 10) b then [RiesgoBeta b] else [])
      ++ (if qlt 3 trend then [RiesgoDilucion trend] else [])
      ++ (if qlt 70 r then [RiesgoRsiSobrecompra r] else [])
      ++ (if truthy mg && truthy mg_s && qlt mg (mg_s * (8 # 10))
          then [RiesgoMargenes mg mg_s] else [])
      ++ (if estado_es zona EsperarRetroceso
          then [RiesgoZonaEntrada (match zona with Some z => distancia_zona_pct z | None => 0 end)]
          else [])).

Definition identificar_riesgos (company_data : CompanyData) (indicadores : option Indicadores)
  : res (list Riesgo) :=
  let* riesgos_l := riesgos_detectados company_data indicadores in
  Ok (match riesgos_l with [] => [IncertidumbreMacroeconomica] | _ => riesgos_l end).

Inductive Oportunidad : Type :=
| OportunidadVentas (vs5 : Q)
| OportunidadRecompra
| OportunidadReduccionAcciones (trend : Q)
| OportunidadMargenes (mg mg_s : Q)
| OportunidadBpa (bpa5 : Q)
| OportunidadRsiSobreventa (r : Q)
| OportunidadZonaEntrada
| OportunidadDividendo (g5 : Q)
| ExpansionMercadosEmergentes.

(** The findings appended by [identificar_oportunidades] before its fallback. *)
Definition oportunidades_detectadas (company_data : CompanyData) (indicadores : option Indicadores)
  : res (list Oportunidad) :=
  let fund := fundamentals company_data in
  let sect := sector company_data in
  let vs5 := fund_get fund sales_growth_5y in
  let buyback := match fund with Some f => get_or (has_buyback f) false | None => false end in
  let trend := tendencia_acciones (shares_data company_data) in
  let mg := fund_get fund gross_margin_5y_avg in
  let mg_s := sector_get sect sector_gross_margin in
  let bpa5 := fund_get fund eps_growth_5y in
  let* r := valor_rsi indicadores in
  let zona := zona_de indicadores in
  let g5 := match dividends company_data with Some d => get_or (dividend_growth_5y d) 0 | None => 0 end in
  Ok ((if qlt 10 vs5 then [OportunidadVentas vs5] else [])
      ++ (if buyback then [OportunidadRecompra] else [])
      ++ (if qlt trend (-2) then [OportunidadReduccionAcciones trend] else [])
      ++ (if truthy mg && truthy mg_s && qlt (mg_s * (11 # 10)) mg
          then [OportunidadMargenes mg mg_s] else [])
      ++ (if qlt 10 bpa5 then [OportunidadBpa bpa5] else [])
      ++ (if qlt r 35 then [OportunidadRsiSobreventa r] else [])
      ++ (if estado_es zona ZonaEntradaActiva then [OportunidadZonaEntrada] else [])
      ++ (if qlt 5 g5 then [OportunidadDividendo g5] else [])).

Definition identificar_oportunidades (company_data : CompanyData) (indicadores : option Indicadores)
  : res (list Oportunidad) :=
  let* oportunidades_l := oportunidades_detectadas company_data indicadores in
  Ok (match oportunidades_l with [] => [ExpansionMercadosEmergentes] | _ => oportunidades_l end).

(** [generar_analisis_completo] *)
Record Analisis : Type := {
  score : Score;
  resumen_ejecutivo : list Parrafo;
  lista_riesgos : list Riesgo;
  oportunidades : list Oportunidad;
  zona_entrada_analisis : option Zona }.

Definition generar_analisis_completo (company_data : CompanyData) (indicadores : option Indicadores)
  : res Analisis :=
  let* score_data := calcular_score company_data indicadores in
  let* resumen := generar_resumen_ejecutivo company_data indicadores score_data in
  let* riesgos_l := identificar_riesgos company_data indicadores in
  let* oportunidades_l := identificar_oportunidades company_data indicadores in
  Ok {| score := score_data; resumen_ejecutivo := resumen; lista_riesgos := riesgos_l;
        oportunidades := oportunidades_l; zona_entrada_analisis := zona_de indicadores |}.

(** The analysis step of [app.py]: the beta comes from the profile
    ([company_data.get("profile", {}).get("beta", 1.0)]), the indicators
    from the price history, and a falsy indicator result becomes [{}]. *)
Definition analizar (company_data : CompanyData) (historical : list Bar) : res Analisis :=
  let* indicadores := calcular_todos_indicadores historical (perfil_beta (profile company_data)) in
  generar_analisis_completo company_data indicadores.

(** ** One input changed, all others fixed *)

Definition con_sales_growth_5y (f : Fundamentals) (v : Q) : Fundamentals :=
  {| pe_ratio := pe_ratio f; price_to_book := price_to_book f;
     gross_margin_5y_avg := gross_margin_5y_avg f; sales_growth_5y := Some v;
     eps_growth_5y := eps_growth_5y f; debt_to_equity := debt_to_equity f;
     payout_ratio := payout_ratio f; has_buyback := has_buyback f |}.

Definition con_eps_growth_5y (f : Fundamentals) (v : Q) : Fundamentals :=
  {| pe_ratio := pe_ratio f; price_to_book := price_to_book f;
     gross_margin_5y_avg := gross_margin_5y_avg f; sales_growth_5y := sales_growth_5y f;
     eps_growth_5y := Some v; debt_to_equity := debt_to_equity f;
     payout_ratio := payout_ratio f; has_buyback := has_buyback f |}.

Definition con_debt_to_equity (f : Fundamentals) (v : Q) : Fundamentals :=
  {| pe_ratio := pe_ratio f; price_to_book := price_to_book f;
     gross_margin_5y_avg := gross_margin_5y_avg f; sales_growth_5y := sales_growth_5y f;
     eps_growth_5y := eps_growth_5y f; debt_to_equity := Some v;
     payout_ratio := payout_ratio f; has_buyback := has_buyback f |}.

Definition con_dividend_yield_at_buy (d : Dividends) (v : Q) : Dividends :=
  {| dividend_yield_at_buy := Some v; dividend_growth_3y := dividend_growth_3y d;
     dividend_growth_5y := dividend_growth_5y d |}.

Definition con_fundamentals (cd : CompanyData) (f : Fundamentals) : CompanyData :=
  {| profile := profile cd; fundamentals := Some f; sector := sector cd;
     dividends := dividends cd; shares_data := shares_data cd |}.

Definition con_dividends (cd : CompanyData) (d : Dividends) : CompanyData :=
  {| profile := profile cd; fundamentals := fundamentals cd; sector := sector cd;
     dividends := Some d; shares_data := shares_data cd |}.

(** [calcular_score] succeeds on both inputs, the second total being at
    least the first. *)
Definition score_no_decrece (cd1 cd2 : CompanyData) (ind : option Indicadores) : Prop :=
  exists s1 s2, calcular_score cd1 ind = Ok s1 /\ calcular_score cd2 ind = Ok s2 /\
    (score_total s1 <= score_total s2)%Z.

(** A company with every block present. *)
Definition fundamentales_ejemplo : Fundamentals :=
  {| pe_ratio := Some 15; price_to_book := Some 2; gross_margin_5y_avg := Some 40;
     sales_growth_5y := Some 3; eps_growth_5y := Some 5; debt_to_equity := Some (1 # 2);
     payout_ratio := Some 40; has_buyback := Some true |}.

Definition dividendos_ejemplo : Dividends :=
  {| dividend_yield_at_buy := Some 2; dividend_growth_3y := Some 6; dividend_growth_5y := Some 4 |}.

Definition company_ejemplo : CompanyData :=
  {| profile := Some {| beta := Some (6 # 5) |};
     fundamentals := Some fundamentales_ejemplo;
     sector := Some {| sector_pe := Some 20; sector_pb := Some 3; sector_gross_margin := Some 35;
                       sector_debt_to_equity := Some (4 # 5) |};
     dividends := Some dividendos_ejemplo;
     shares_data := Some {| shares_outstanding := Some 1000000000; shares_trend_3y := Some (-1) |} |}.

(** The dividend sub-score after the share-count adjustment of
    [calcular_score]. *)
Definition dividendo_ajustado (company_data : CompanyData) : Z :=
  let p := puntuar_dividendo (dividends company_data) (fundamentals company_data) in
  if qlt (tendencia_acciones (shares_data company_data)) 0 then Z.min (p + 1) 15 else p.

(** ** Sample inputs *)

Definition company_vacia : CompanyData :=
  {| profile := None; fundamentals := None; sector := None; dividends := None;
     shares_data := None |}.

Definition historia_corta : list Bar := repeat {| close := 10; volume := Some 5 |} 29.

Definition dividendos_sin_crecimiento : Dividends :=
  {| dividend_yield_at_buy := Some 0; dividend_growth_3y := Some 0; dividend_growth_5y := Some 0 |}.

Definition company_dividendos (trend : Q) : CompanyData :=
  {| profile := None; fundamentals := None; sector := None;
     dividends := Some dividendos_sin_crecimiento;
     shares_data := Some {| shares_outstanding := Some 1000000000; shares_trend_3y := Some trend |} |}.

Definition historia_bajista : list Bar :=
  map (fun i => {| close := 100 - inject_Z (Z.of_nat i); volume := Some 1 |}) (seq 0 30).

(** The indicator bundle of [historia_bajista], beta 1. *)
Definition indicadores_bajistas : option Indicadores :=
  match calcular_todos_indicadores historia_bajista 1 with Ok i => i | Err _ => None end.

(** Sixteen closes: one loss of 14 on the first day, one gain of 14 on the
    last, flat in between. *)
Definition cierres_perdida_inicial : list Q :=
  [14; 0; 0; 0; 0; 0; 0; 0; 0; 0; 0; 0; 0; 0; 0; 14].

(** Fifteen closes: thirteen gains of 100000, then a loss of 1. *)
Definition cierres_perdida_minima : list Q :=
  0 :: map (fun i => inject_Z (Z.of_nat i) * 100000) (seq 1 13) ++ [1299999].

(** A price within [lo, hi] given in whole cents. *)
Definition centimos (lo hi : Z) (x : Q) : Prop := inject_Z lo <= 100 * x <= inject_Z hi.

Definition cierres_cortos : list Q := [1; 2; 3; 5 # 2].

(** The order Bajo < Medio < Alto of the risk levels. *)
Definition nivel_rango (n : Nivel) : Z :=
  match n with Bajo => 0 | Medio => 1 | Alto => 2 end.

Definition barras_ejemplo : list Bar :=
  [{| close := 10; volume := Some 100 |}; {| close := 11; volume := None |};
   {| close := 12; volume := Some 250 |}].

(** * Properties *)

(** ** Comparisons *)

Lemma qlt_true a b : qlt a b = true -> a < b.
Proof.
  unfold qlt. intro H. apply negb_true_iff in H.
  apply Qnot_le_lt. intro C. apply Qle_bool_iff in C. congruence.
Qed.

Lemma qlt_false a b : qlt a b = false -> b <= a.
Proof. unfold qlt. intro H. apply negb_false_iff in H. now apply Qle_bool_iff. Qed.

Lemma qlt_intro a b : a < b -> qlt a b = true.
Proof.
  intro H. destruct (qlt a b) eqn:E; [reflexivity|].
  apply qlt_false in E. exfalso. apply (Qlt_not_le _ _ H E).
Qed.

Lemma qle_true a b : qle a b = true -> a <= b.
Proof. apply Qle_bool_iff. Qed.

Lemma qle_false a b : qle a b = false -> b < a.
Proof.
  intro H. apply Qnot_le_lt. intro C. apply Qle_bool_iff in C. unfold qle in H. congruence.
Qed.

(** Case on every Python comparison of the goal, keeping the fact it decides. *)
Ltac qcases :=
  repeat match goal with
  | |- context [qlt ?a ?b] =>
      let E := fresh "E" in
      destruct (qlt a b) eqn:E; [apply qlt_true in E | apply qlt_false in E]
  | |- context [qle ?a ?b] =>
      let E := fresh "E" in
      destruct (qle a b) eqn:E; [apply qle_true in E | apply qle_false in E]
  end; simpl.

Lemma pdiv_pos a b : 0 < b -> pdiv a b = Ok (Qred (a / b)).
Proof.
  intro H. unfold pdiv. destruct (Qeq_bool b 0) eqn:E; [|reflexivity].
  apply Qeq_bool_iff in E. rewrite E in H. discriminate.
Qed.

Lemma pdiv_nonzero a b : ~ b == 0 -> pdiv a b = Ok (Qred (a / b)).
Proof.
  intro H. unfold pdiv. destruct (Qeq_bool b 0) eqn:E; [|reflexivity].
  apply Qeq_bool_iff in E. contradiction.
Qed.

Lemma qnat_pos n : (0 < n)%nat -> 0 < qnat n.
Proof.
  intro H. unfold qnat. rewrite <- (Zlt_Qlt 0). lia.
Qed.

Lemma qnat_nonneg n : 0 <= qnat n.
Proof. unfold qnat. rewrite <- (Zle_Qle 0). lia. Qed.

(** ** The score is always computable *)

(** A division behind a guard that its denominator is positive. *)
Lemma division_protegida_ok (c : bool) (a b : Q) (k : Q -> Z) (d : Z) :
  (c = true -> 0 < b) ->
  (if c then bind (pdiv a b) (fun r => Ok (k r)) else Ok d)
  = Ok (if c then k (Qred (a / b)) else d).
Proof.
  intro H. destruct c; [|reflexivity]. rewrite pdiv_pos by now apply H. reflexivity.
Qed.

Ltac guarda_ultima :=
  let H := fresh "H" in
  intro H; apply andb_true_iff in H as [_ H]; now apply qlt_true.

Lemma puntuar_precio_valoracion_ok f s :
  exists p, puntuar_precio_valoracion f s = Ok p.
Proof.
  destruct f as [f|], s as [s|]; simpl; try (eexists; reflexivity).
  rewrite division_protegida_ok by guarda_ultima. simpl.
  rewrite division_protegida_ok by guarda_ultima. simpl.
  eexists; reflexivity.
Qed.

Lemma puntuar_fortaleza_financiera_ok f s :
  exists p, puntuar_fortaleza_financiera f s = Ok p.
Proof.
  destruct f as [f|], s as [s|]; simpl; try (eexists; reflexivity).
  rewrite division_protegida_ok by guarda_ultima. simpl.
  rewrite division_protegida_ok by guarda_ultima. simpl.
  eexists; reflexivity.
Qed.

(** [calcular_score] never fails, and its total is the clamped sum. *)
Lemma calcular_score_spec cd ind :
  exists pp pf,
    puntuar_precio_valoracion (fundamentals cd) (sector cd) = Ok pp /\
    puntuar_fortaleza_financiera (fundamentals cd) (sector cd) = Ok pf /\
    exists s, calcular_score cd ind = Ok s /\
      score_total s =
        Z.max 1 (Z.min 100 (pp + dividendo_ajustado cd
                            + puntuar_crecimiento (fundamentals cd) (sector cd) + pf
                            + puntuar_medias_moviles ind + puntuar_osciladores ind
                            + puntuar_volumen ind + puntuar_contexto_beta ind
                            + puntuar_acciones_circulacion (shares_data cd)))%Z.
Proof.
  destruct (puntuar_precio_valoracion_ok (fundamentals cd) (sector cd)) as [pp Hp].
  destruct (puntuar_fortaleza_financiera_ok (fundamentals cd) (sector cd)) as [pf Hf].
  exists pp, pf. split; [exact Hp|]. split; [exact Hf|].
  unfold calcular_score. rewrite Hp. simpl. rewrite Hf. simpl.
  eexists. split; [reflexivity|]. reflexivity.
Qed.

Lemma score_total_rango cd ind s :
  calcular_score cd ind = Ok s -> (1 <= score_total s <= 100)%Z.
Proof.
  destruct (calcular_score_spec cd ind) as (pp & pf & _ & _ & s' & Hs & Ht).
  rewrite Hs. intro E. injection E as <-. rewrite Ht. lia.
Qed.

(** ** EMA and MACD *)

Lemma ema_ok (l : list Q) (p : nat) :
  p <> 0%nat ->
  exists o, calcular_media_movil_exponencial l p = Ok o /\
            ((p <= length l)%nat -> exists e, o = Some e).
Proof.
  intro Hp. unfold calcular_media_movil_exponencial.
  destruct (length l <? p)%nat eqn:E.
  - exists None. split; [reflexivity|]. intro H. apply Nat.ltb_lt in E. lia.
  - rewrite pdiv_pos by (pose proof (qnat_nonneg p); lra). simpl.
    rewrite pdiv_pos by (apply qnat_pos; lia). simpl.
    eexists; split; [reflexivity|]. eauto.
Qed.

Section ConcatMapM.
Context {A B : Type} (f : A -> res (list B)).

Lemma concat_mapM_ok (l : list A) :
  (forall x, In x l -> exists ys, f x = Ok ys) -> exists zs, concat_mapM f l = Ok zs.
Proof.
  induction l as [|x l IH]; intro H; simpl; [eauto|].
  destruct (H x (or_introl eq_refl)) as [ys Hy]. rewrite Hy. simpl.
  destruct IH as [zs Hz]; [intros y Hin; apply H; now right|].
  rewrite Hz. simpl. eauto.
Qed.

Lemma concat_mapM_in (l : list A) zs y :
  concat_mapM f l = Ok zs -> In y zs -> exists x ys, In x l /\ f x = Ok ys /\ In y ys.
Proof.
  revert zs. induction l as [|x l IH]; intros zs H Hy; simpl in H.
  - injection H as <-. destruct Hy.
  - destruct (f x) as [ys|e] eqn:Hx; simpl in H; [|discriminate].
    destruct (concat_mapM f l) as [ws|e] eqn:Hl; simpl in H; [|discriminate].
    injection H as <-. apply in_app_or in Hy as [Hy|Hy].
    + exists x, ys. split; [now left|auto].
    + destruct (IH ws eq_refl Hy) as (x' & ys' & Hin & Hf & Hy').
      exists x', ys'. split; [now right|auto].
Qed.

Lemma concat_mapM_length_le (l : list A) zs :
  (forall x ys, f x = Ok ys -> (length ys <= 1)%nat) ->
  concat_mapM f l = Ok zs -> (length zs <= length l)%nat.
Proof.
  intro Hf. revert zs. induction l as [|x l IH]; intros zs H; simpl in H.
  - injection H as <-. simpl. lia.
  - destruct (f x) as [ys|e] eqn:Hx; simpl in H; [|discriminate].
    destruct (concat_mapM f l) as [ws|e] eqn:Hl; simpl in H; [|discriminate].
    injection H as <-. rewrite length_app. specialize (Hf _ _ Hx).
    specialize (IH ws eq_refl). simpl. lia.
Qed.

Lemma concat_mapM_length_eq (l : list A) zs :
  (forall x, In x l -> forall ys, f x = Ok ys -> length ys = 1%nat) ->
  concat_mapM f l = Ok zs -> length zs = length l.
Proof.
  revert zs. induction l as [|x l IH]; intros zs Hf H; simpl in H.
  - injection H as <-. reflexivity.
  - destruct (f x) as [ys|e] eqn:Hx; simpl in H; [|discriminate].
    destruct (concat_mapM f l) as [ws|e] eqn:Hl; simpl in H; [|discriminate].
    injection H as <-. rewrite length_app.
    rewrite (Hf x (or_introl eq_refl) ys Hx).
    rewrite (IH ws (fun y Hy => Hf y (or_intror Hy)) eq_refl). reflexivity.
Qed.
End ConcatMapM.

Lemma macd_point_ok l i :
  exists ys, macd_point l i = Ok ys /\ (length ys <= 1)%nat.
Proof.
  destruct (ema_ok (firstn (S i) l) 12 ltac:(discriminate)) as (o1 & H1 & _).
  destruct (ema_ok (firstn (S i) l) 26 ltac:(discriminate)) as (o2 & H2 & _).
  unfold macd_point. rewrite H1. cbn [bind]. rewrite H2. cbn [bind]. eexists. split; [reflexivity|].
  destruct o1, o2; simpl; try lia. destruct (truthy _ && truthy _); simpl; lia.
Qed.

Lemma macd_series_ok l :
  exists serie, macd_series l = Ok serie /\ (length serie <= length l - 26)%nat.
Proof.
  destruct (concat_mapM_ok (macd_point l) (seq 26 (length l - 26))) as [serie Hs].
  { intros x _. destruct (macd_point_ok l x) as (ys & Hy & _). eauto. }
  exists serie. split; [exact Hs|].
  rewrite <- (length_seq (length l - 26) 26).
  apply (concat_mapM_length_le (macd_point l) _ _); [|exact Hs].
  intros x ys Hx. destruct (macd_point_ok l x) as (ys' & Hy & Hl). congruence.
Qed.

Lemma calcular_macd_spec l :
  exists m serie,
    calcular_macd l = Ok m /\ macd_series l = Ok serie /\
    is_bullish m = qlt (signal_value m) (macd_value m) /\
    ((length l < 26)%nat -> m = macd_nulo) /\
    ((length serie < 9)%nat -> signal_value m = 0) /\
    ((26 <= length l)%nat -> (9 <= length serie)%nat ->
     exists s, calcular_media_movil_exponencial serie 9 = Ok (Some s) /\
               signal_value m = py_round 4 s).
Proof.
  destruct (macd_series_ok l) as (serie & Hs & Hlen).
  unfold calcular_macd. destruct (length l <? 26)%nat eqn:E.
  - apply Nat.ltb_lt in E. exists macd_nulo, serie.
    repeat split; auto; intros; lia.
  - apply Nat.ltb_ge in E.
    destruct (ema_ok l 12 ltac:(discriminate)) as (o1 & H1 & S1).
    destruct (ema_ok l 26 ltac:(discriminate)) as (o2 & H2 & S2).
    destruct (S1 ltac:(lia)) as [e12 ->]. destruct (S2 ltac:(lia)) as [e26 ->].
    rewrite H1. cbn [bind]. rewrite H2. cbn [bind]. rewrite Hs. cbn [bind].
    destruct (9 <=? length serie)%nat eqn:E9.
    + apply Nat.leb_le in E9.
      destruct (ema_ok serie 9 ltac:(discriminate)) as (o3 & H3 & S3).
      destruct (S3 E9) as [s ->]. rewrite H3. cbn [bind].
      eexists _, serie. repeat split; auto; try (intros; lia).
      intros _ _. exists s. auto.
    + apply Nat.leb_gt in E9. simpl.
      eexists _, serie. repeat split; auto; intros; lia.
Qed.

Lemma macd_point_in l i ys x :
  macd_point l i = Ok ys -> In x ys ->
  exists a b,
    calcular_media_movil_exponencial (firstn (S i) l) 12 = Ok (Some a) /\
    calcular_media_movil_exponencial (firstn (S i) l) 26 = Ok (Some b) /\
    truthy a = true /\ truthy b = true /\ x = a - b.
Proof.
  unfold macd_point.
  destruct (calcular_media_movil_exponencial (firstn (S i) l) 12) as [o1|e] eqn:H1;
    cbn [bind]; [|discriminate].
  destruct (calcular_media_movil_exponencial (firstn (S i) l) 26) as [o2|e] eqn:H2;
    cbn [bind]; [|discriminate].
  intro E. injection E as <-.
  destruct o1 as [a|], o2 as [b|]; try (intro C; destruct C).
  destruct (truthy a) eqn:T1, (truthy b) eqn:T2; simpl; intro C; try destruct C.
  subst x. exists a, b. auto.
  destruct H.
Qed.

Lemma macd_point_uno l i ys :
  (26 <= i)%nat -> (S i <= length l)%nat ->
  (forall a b,
     calcular_media_movil_exponencial (firstn (S i) l) 12 = Ok (Some a) ->
     calcular_media_movil_exponencial (firstn (S i) l) 26 = Ok (Some b) ->
     truthy a = true /\ truthy b = true) ->
  macd_point l i = Ok ys -> length ys = 1%nat.
Proof.
  intros Hi Hl Ht.
  assert (Hp : length (firstn (S i) l) = S i) by (rewrite length_firstn; lia).
  destruct (ema_ok (firstn (S i) l) 12 ltac:(discriminate)) as (o1 & H1 & S1).
  destruct (ema_ok (firstn (S i) l) 26 ltac:(discriminate)) as (o2 & H2 & S2).
  destruct (S1 ltac:(lia)) as [a ->]. destruct (S2 ltac:(lia)) as [b ->].
  destruct (Ht a b H1 H2) as [Ta Tb].
  unfold macd_point. rewrite H1. cbn [bind]. rewrite H2. cbn [bind].
  rewrite Ta, Tb. simpl. intro E. injection E as <-. reflexivity.
Qed.

(** Claim C10: with 26 to 34 closes, [calcular_macd] returns
    [signal_value = 0] and still reports [is_bullish] exactly when the
    MACD value is strictly positive. *)
Theorem macd_sin_senal_compara_con_cero (precios : list Q)
  (H : (26 <= length precios < 35)%nat) :
  exists m, calcular_macd precios = Ok m /\ signal_value m = 0 /\
            (is_bullish m = true <-> 0 < macd_value m).
Proof.
  destruct (calcular_macd_spec precios) as (m & serie & Hm & Hs & Hb & _ & H0 & _).
  destruct (macd_series_ok precios) as (serie' & Hs' & Hlen).
  rewrite Hs in Hs'. injection Hs' as <-.
  assert (Hz : signal_value m = 0) by (apply H0; lia).
  exists m. split; [exact Hm|]. split; [exact Hz|].
  rewrite Hb, Hz. split; [apply qlt_true | apply qlt_intro].
Qed.

Lemma macd_sin_senal_compara_con_cero_witness :
  (26 <= length (repeat 1 30) < 35)%nat /\
  exists m, calcular_macd (repeat 1 30) = Ok m /\ signal_value m = 0 /\
            (is_bullish m = true <-> 0 < macd_value m).
Proof.
  split; [simpl; lia|]. apply (macd_sin_senal_compara_con_cero (repeat 1 30)). simpl; lia.
Defined.

(** Claim C5 (code defect): inside the loop of [calcular_macd] every prefix
    has at least 27 closes, so both EMAs always exist (never [None], unlike
    the top-level check [ema_12 is None or ema_26 is None]). The test
    [if ema12_i and ema26_i] can therefore only drop a bar whose rounded EMA
    is 0, and it does drop it. With 35 closes of 0.001, both EMAs are 0.0
    (present, not [None]): the top-level MACD value is computed, but every
    bar is dropped, the series stays empty, and the signal line is never
    computed although there are 35 bars. *)
Theorem macd_descarta_emas_nulas :
  (forall (precios : list Q) (i : nat), (26 <= i < length precios)%nat ->
     exists a b,
       calcular_media_movil_exponencial (firstn (S i) precios) 12 = Ok (Some a) /\
       calcular_media_movil_exponencial (firstn (S i) precios) 26 = Ok (Some b) /\
       (macd_point precios i = Ok [] <-> a == 0 \/ b == 0) /\
       (~ (a == 0 \/ b == 0) -> macd_point precios i = Ok [a - b])) /\
  (length (repeat (1 # 1000) 35) = 35%nat /\
   calcular_media_movil_exponencial (repeat (1 # 1000) 35) 12 = Ok (Some 0) /\
   calcular_media_movil_exponencial (repeat (1 # 1000) 35) 26 = Ok (Some 0) /\
   macd_series (repeat (1 # 1000) 35) = Ok [] /\
   calcular_macd (repeat (1 # 1000) 35) = Ok macd_nulo).
Proof.
  split; [|vm_compute; auto].
  intros precios i Hi.
  assert (Hp : length (firstn (S i) precios) = S i) by (rewrite length_firstn; lia).
  destruct (ema_ok (firstn (S i) precios) 12 ltac:(discriminate)) as (o1 & H1 & S1).
  destruct (ema_ok (firstn (S i) precios) 26 ltac:(discriminate)) as (o2 & H2 & S2).
  destruct (S1 ltac:(lia)) as [a ->]. destruct (S2 ltac:(lia)) as [b ->].
  exists a, b. split; [exact H1|]. split; [exact H2|].
  unfold macd_point. rewrite H1. cbn [bind]. rewrite H2. cbn [bind].
  unfold truthy.
  destruct (Qeq_bool a 0) eqn:Ea, (Qeq_bool b 0) eqn:Eb; cbn [negb andb].
  all: split; [split; [intro E | intro E] | intro N].
  all: try (left; apply Qeq_bool_iff; exact Ea).
  all: try (right; apply Qeq_bool_iff; exact Eb).
  all: try reflexivity.
  all: try (exfalso; apply N; first [left; apply Qeq_bool_iff; exact Ea
                                     | right; apply Qeq_bool_iff; exact Eb]).
  - discriminate.
  - destruct E as [E|E]; apply Qeq_bool_iff in E; congruence.
Qed.

(** ** Short histories *)

(** Claim C1: below 30 bars the indicator engine returns [None] instead of
    raising, and the analysis still completes with [score_total] in
    [1, 100]. *)
Theorem analisis_con_historia_corta (cd : CompanyData) (historical : list Bar)
  (H : (length historical < 30)%nat) :
  calcular_todos_indicadores historical (perfil_beta (profile cd)) = Ok None /\
  exists a, analizar cd historical = Ok a /\ (1 <= score_total (score a) <= 100)%Z.
Proof.
  assert (Hn : calcular_todos_indicadores historical (perfil_beta (profile cd)) = Ok None).
  { unfold calcular_todos_indicadores. apply Nat.ltb_lt in H. now rewrite H. }
  split; [exact Hn|].
  destruct (calcular_score_spec cd None) as (pp & pf & _ & _ & s & Hs & _).
  unfold analizar. rewrite Hn. cbn [bind]. unfold generar_analisis_completo. rewrite Hs.
  cbn [bind]. eexists. split; [reflexivity|]. simpl. eapply score_total_rango; eauto.
Qed.

Lemma analisis_con_historia_corta_witness :
  (length historia_corta < 30)%nat /\
  calcular_todos_indicadores historia_corta (perfil_beta (profile company_vacia)) = Ok None /\
  exists a, analizar company_vacia historia_corta = Ok a /\ (1 <= score_total (score a) <= 100)%Z.
Proof.
  split; [vm_compute; lia|].
  apply (analisis_con_historia_corta company_vacia historia_corta). vm_compute; lia.
Defined.

(** ** Dividend bonus *)

(** Claim C7 (code defect): [puntuar_dividendo] always adds the "share count
    shrinking" point, and [calcular_score] adds it again when the trend is
    negative.  With every dividend band at 0, no buyback and a flat share
    count the sub-score is 1 (the claim gives 0); with a shrinking share
    count it is 2 (the claim gives 1). *)
Theorem dividendo_punto_extra_incondicional :
  puntos_yield 0 = 0%Z /\ puntos_crecimiento_dividendo 0 0 = 0%Z /\ puntos_payout 0 = 0%Z /\
  qlt (tendencia_acciones (shares_data (company_dividendos 0))) 0 = false /\
  (exists s, calcular_score (company_dividendos 0) None = Ok s /\
             dividendo_retribucion (desglose s) = 1%Z) /\
  qlt (tendencia_acciones (shares_data (company_dividendos (-16 # 5)))) 0 = true /\
  (exists s, calcular_score (company_dividendos (-16 # 5)) None = Ok s /\
             dividendo_retribucion (desglose s) = 2%Z).
Proof.
  repeat split; try reflexivity; (eexists; split; [reflexivity | reflexivity]).
Qed.

(** ** Risk classifier *)

(** Claim C8 (code defect): [evaluar_riesgos] guards the RSI with
    [rsi and ...], so an RSI of exactly 0, the most extreme oversold value,
    scores no short-term point.  Thirty strictly falling closes give RSI 0
    (classified "Sobreventa" by the sibling [calcular_todos_indicadores]
    through [rsi is not None]) and a "Bajo" short-term risk, while RSI 0.01
    gives "Medio". *)
Theorem riesgo_corto_ignora_rsi_cero :
  (exists i, calcular_todos_indicadores historia_bajista 1 = Ok (Some i) /\
     rsi i = Some {| rsi_valor := 0; rsi_zona := Sobreventa |} /\
     option_map posicion (bollinger i) = Some BandaMedia /\
     variacion_pct (volumen i) = 0 /\
     riesgo_corto_plazo (riesgos i) = Bajo) /\
  riesgo_corto_plazo (evaluar_riesgos 1 (Some 0) 0 BandaMedia) = Bajo /\
  riesgo_corto_plazo (evaluar_riesgos 1 (Some (1 # 100)) 0 BandaMedia) = Medio.
Proof.
  split; [|split; reflexivity].
  vm_compute. eexists. split; [reflexivity|]. repeat split; reflexivity.
Qed.

(** ** RSI *)

(** Claim C3 (code defect): [calcular_rsi] seeds the averages with
    [subidas[-periodo:]], the LAST 14 deltas, and then smooths again over
    deltas 14.. which the seed already holds.  On 16 closes the code's
    averages are (27/14, 0) and the RSI is 100, where seeding with the first
    14 deltas (as the spec and the comment "método estándar de Wilder"
    say) gives (1, 13/14) and an RSI of 51.85. *)
Theorem rsi_semilla_con_ultimos_cambios :
  length cierres_perdida_inicial = 16%nat /\
  promedios_rsi cierres_perdida_inicial 14 = Ok (27 # 14, 0) /\
  promedios_rsi_wilder cierres_perdida_inicial 14 = Ok (1, 13 # 14) /\
  calcular_rsi cierres_perdida_inicial 14 = Ok (Some 100) /\
  calcular_rsi_wilder cierres_perdida_inicial 14 = Ok (Some (1037 # 20)).
Proof. vm_compute. repeat split; reflexivity. Qed.

(** Claim C4 as stated fails: a loss occurs in the window, yet
    [100 - 100/(1 + rs)] is 99.99992..., which rounds to 100.0. *)
Lemma rsi_cien_con_perdida :
  length cierres_perdida_minima = 15%nat /\
  calcular_rsi cierres_perdida_minima 14 = Ok (Some 100) /\
  nth 14 cierres_perdida_minima 0 < nth 13 cierres_perdida_minima 0.
Proof. vm_compute. repeat split; reflexivity. Qed.

(** Bounds of the RSI computation. *)

Lemma div_nonneg a b : 0 <= a -> 0 < b -> 0 <= Qred (a / b).
Proof.
  intros Ha Hb. rewrite (Qred_correct (a / b)). apply Qle_shift_div_l; [exact Hb|]. lra.
Qed.

Lemma py_sum_nonneg_aux l acc :
  Forall (fun x => 0 <= x) l -> 0 <= acc -> 0 <= fold_left (fun acc x => Qred (acc + x)) l acc.
Proof.
  revert acc. induction l as [|x l IH]; intros acc Hl Ha; simpl; [exact Ha|].
  inversion Hl as [|? ? Hx Hl']; subst. apply IH; [exact Hl'|].
  rewrite (Qred_correct (acc + x)). lra.
Qed.

Lemma py_sum_nonneg l : Forall (fun x => 0 <= x) l -> 0 <= py_sum l.
Proof. intro H. apply py_sum_nonneg_aux; [exact H | lra]. Qed.

Lemma py_sum_cero_aux l acc :
  Forall (fun x => x == 0) l -> acc == 0 -> fold_left (fun acc x => Qred (acc + x)) l acc == 0.
Proof.
  revert acc. induction l as [|x l IH]; intros acc Hl Ha; simpl; [exact Ha|].
  inversion Hl as [|? ? Hx Hl']; subst. apply IH; [exact Hl'|].
  rewrite (Qred_correct (acc + x)), Hx, Ha. reflexivity.
Qed.

Lemma py_sum_cero l : Forall (fun x => x == 0) l -> py_sum l == 0.
Proof. intro H. apply py_sum_cero_aux; [exact H | reflexivity]. Qed.

Lemma subida_nonneg c : 0 <= subida c.
Proof. unfold subida. qcases; lra. Qed.

Lemma bajada_nonneg c : 0 <= bajada c.
Proof.
  unfold bajada. destruct (qlt c 0) eqn:E; [|lra].
  apply qlt_true in E. rewrite Qabs_neg by lra. lra.
Qed.

Lemma bajada_cero c : 0 <= c -> bajada c = 0.
Proof.
  intro H. unfold bajada. destruct (qlt c 0) eqn:E; [|reflexivity].
  apply qlt_true in E. lra.
Qed.

Lemma Forall_skipn {A : Type} (P : A -> Prop) n l :
  Forall P l -> Forall P (skipn n l).
Proof.
  revert l. induction n as [|n IH]; intros l H; [exact H|].
  destruct l as [|x l]; [constructor|]. inversion H; subst. simpl. auto.
Qed.

Lemma Forall_tail_slice {A : Type} (P : A -> Prop) k l :
  Forall P l -> Forall P (tail_slice k l).
Proof. intro H. destruct k; simpl; [exact H | apply Forall_skipn; exact H]. Qed.

Lemma Forall_combine {A B : Type} (P : A -> Prop) (R : B -> Prop) l1 l2 :
  Forall P l1 -> Forall R l2 -> Forall (fun p => P (fst p) /\ R (snd p)) (combine l1 l2).
Proof.
  revert l2. induction l1 as [|x l1 IH]; intros l2 H1 H2; [constructor|].
  destruct l2 as [|y l2]; [constructor|]. simpl.
  inversion H1; inversion H2; subst. constructor; auto.
Qed.

Lemma Forall_map_intro {A : Type} (P : Q -> Prop) (f : A -> Q) l :
  (forall x, P (f x)) -> Forall P (map f l).
Proof. intro H. induction l; simpl; constructor; auto. Qed.

Lemma cambios_sin_perdida (precios : list Q) :
  (forall i, (S i < length precios)%nat -> nth i precios 0 <= nth (S i) precios 0) ->
  Forall (fun c => 0 <= c) (cambios_diarios precios).
Proof.
  induction precios as [|x r IH]; intro H; [constructor|].
  destruct r as [|y r']; [constructor|].
  simpl. constructor.
  - specialize (H O). simpl in H. assert (x <= y) by (apply H; lia). lra.
  - apply IH. intros i Hi. apply (H (S i)). simpl in *. lia.
Qed.

Lemma bajadas_cero l :
  Forall (fun c => 0 <= c) l -> Forall (fun b => b == 0) (map bajada l).
Proof.
  induction l as [|c l IH]; intro H; simpl; constructor; inversion H; subst.
  - rewrite bajada_cero by assumption. reflexivity.
  - auto.
Qed.

Lemma suavizado_wilder_acotado periodo sb a b :
  (0 < periodo)%nat ->
  Forall (fun p => 0 <= fst p /\ 0 <= snd p) sb -> 0 <= a -> 0 <= b ->
  exists a' b', suavizado_wilder periodo sb a b = Ok (a', b') /\ 0 <= a' /\ 0 <= b' /\
    (Forall (fun p => snd p == 0) sb -> b == 0 -> b' == 0).
Proof.
  intros Hp. pose proof (qnat_pos _ Hp) as Hq.
  assert (Hq1 : 0 <= qnat periodo - 1).
  { unfold qnat. assert (1 <= inject_Z (Z.of_nat periodo)).
    { change 1 with (inject_Z 1). rewrite <- Zle_Qle. lia. }
    lra. }
  revert a b. induction sb as [|[s c] sb IH]; intros a b Hsb Ha Hb.
  - exists a, b. simpl. repeat split; auto.
  - inversion Hsb as [|? ? [Hs Hc] Hsb']; subst. simpl in Hs, Hc.
    simpl. rewrite !pdiv_pos by exact Hq. cbn [bind].
    destruct (IH (Qred ((a * (qnat periodo - 1) + s) / qnat periodo))
                 (Qred ((b * (qnat periodo - 1) + c) / qnat periodo)) Hsb')
      as (a' & b' & E & Ha' & Hb' & Hz).
    + apply div_nonneg; [|exact Hq]. pose proof (Qmult_le_0_compat _ _ Ha Hq1). lra.
    + apply div_nonneg; [|exact Hq]. pose proof (Qmult_le_0_compat _ _ Hb Hq1). lra.
    + exists a', b'. repeat split; auto.
      intros Hz0 Hb0. inversion Hz0 as [|? ? Hc0 Hz1]; subst. simpl in Hc0.
      apply Hz; [exact Hz1|]. rewrite (Qred_correct ((b * (qnat periodo - 1) + c) / qnat periodo)), Hb0, Hc0.
      rewrite Qmult_0_l, Qplus_0_l. unfold Qdiv. apply Qmult_0_l.
Qed.

Lemma round_half_even_rango (m n : Z) (y : Q) :
  inject_Z m <= y <= inject_Z n -> (m <= round_half_even y <= n)%Z.
Proof.
  intros [Hm Hn]. unfold round_half_even.
  pose proof (Qfloor_le y) as Hf1.
  assert (Hmf : (m <= Qfloor y)%Z).
  { rewrite <- (Qfloor_Z m). apply Qfloor_resp_le. exact Hm. }
  assert (Hfn : (Qfloor y <= n)%Z).
  { rewrite Zle_Qle. lra. }
  assert (Hlt : y - inject_Z (Qfloor y) > 0 -> (Qfloor y < n)%Z).
  { intro H. rewrite Zlt_Qlt. lra. }
  destruct (qlt (y - inject_Z (Qfloor y)) (1 # 2)) eqn:E1; [lia|].
  apply qlt_false in E1.
  assert (Hpos : (Qfloor y < n)%Z) by (apply Hlt; lra).
  destruct (qlt (1 # 2) (y - inject_Z (Qfloor y))); [lia|].
  destruct (Z.even (Qfloor y)); lia.
Qed.

Lemma py_round_rango (x : Q) : 0 <= x <= 100 -> 0 <= py_round 2 x <= 100.
Proof.
  intros [H0 H1]. unfold py_round.
  replace (inject_Z (10 ^ 2)) with 100 by reflexivity.
  assert (Hr : (0 <= round_half_even (x * 100) <= 10000)%Z).
  { apply round_half_even_rango. change (inject_Z 0) with 0. change (inject_Z 10000) with 10000.
    split; lra. }
  set (z := round_half_even (x * 100)) in *.
  rewrite (Qred_correct (inject_Z z / 100)).
  assert (0 <= inject_Z z) by (change 0 with (inject_Z 0); rewrite <- Zle_Qle; lia).
  assert (inject_Z z <= 10000) by (change 10000 with (inject_Z 10000); rewrite <- Zle_Qle; lia).
  split.
  - apply Qle_shift_div_l; lra.
  - apply Qle_shift_div_r; lra.
Qed.

Lemma rsi_de_promedios_rango a b :
  0 <= a -> 0 <= b ->
  exists r, rsi_de_promedios (a, b) = Ok (Some r) /\ 0 <= r <= 100 /\ (b == 0 -> r = 100).
Proof.
  intros Ha Hb. unfold rsi_de_promedios.
  destruct (Qeq_bool b 0) eqn:E.
  - exists 100. repeat split; try lra; discriminate.
  - assert (Hb' : 0 < b).
    { destruct (Qle_lt_or_eq _ _ Hb) as [H|H]; [exact H|].
      exfalso. assert (Qeq_bool b 0 = true) by (apply Qeq_bool_iff; symmetry; exact H). congruence. }
    rewrite pdiv_pos by exact Hb'. cbn [bind].
    assert (Hrs : 0 <= Qred (a / b)) by (apply div_nonneg; assumption).
    rewrite pdiv_pos by lra. cbn [bind].
    set (rs := Qred (a / b)) in *.
    assert (Hq0 : 0 < 100 / (1 + rs)) by (apply Qlt_shift_div_l; lra).
    assert (Hq1 : 100 / (1 + rs) <= 100) by (apply Qle_shift_div_r; [lra|]; nra).
    exists (py_round 2 (100 - Qred (100 / (1 + rs)))). split; [reflexivity|]. split.
    + apply py_round_rango. rewrite (Qred_correct (100 / (1 + rs))). lra.
    + intro Hz. exfalso. apply Qeq_bool_iff in Hz. congruence.
Qed.

Lemma Forall_verdad {A : Type} (l : list A) : Forall (fun _ => True) l.
Proof. induction l; constructor; auto. Qed.

Lemma calcular_rsi_acotado (precios : list Q) (H : (15 <= length precios)%nat) :
  exists r, calcular_rsi precios 14 = Ok (Some r) /\ 0 <= r <= 100 /\
    ((forall i, (S i < length precios)%nat -> nth i precios 0 <= nth (S i) precios 0) ->
     r = 100).
Proof.
  unfold calcular_rsi.
  replace (length precios <? 14 + 1)%nat with false by (symmetry; apply Nat.ltb_ge; lia).
  unfold promedios_rsi.
  set (cambios := cambios_diarios precios).
  assert (H14 : 0 < qnat 14) by (apply qnat_pos; lia).
  rewrite !pdiv_pos by exact H14. cbn [bind].
  assert (Hs : Forall (fun x => 0 <= x) (map subida cambios))
    by (apply Forall_map_intro; apply subida_nonneg).
  assert (Hb : Forall (fun x => 0 <= x) (map bajada cambios))
    by (apply Forall_map_intro; apply bajada_nonneg).
  destruct (suavizado_wilder_acotado 14
              (skipn 14 (combine (map subida cambios) (map bajada cambios)))
              (Qred (py_sum (tail_slice 14 (map subida cambios)) / qnat 14))
              (Qred (py_sum (tail_slice 14 (map bajada cambios)) / qnat 14)))
    as (a & b & E & Ha & Hb' & Hz).
  - lia.
  - apply Forall_skipn, Forall_combine; assumption.
  - apply div_nonneg; [|exact H14]. apply py_sum_nonneg, Forall_tail_slice, Hs.
  - apply div_nonneg; [|exact H14]. apply py_sum_nonneg, Forall_tail_slice, Hb.
  - rewrite E. cbn [bind].
    destruct (rsi_de_promedios_rango a b Ha Hb') as (r & Er & Hr & Hr100).
    exists r. split; [exact Er|]. split; [exact Hr|].
    intro Hsin. apply Hr100. apply Hz.
    + apply Forall_skipn.
      pose proof (bajadas_cero _ (cambios_sin_perdida _ Hsin)) as Hc. fold cambios in Hc.
      pose proof (Forall_combine _ _ _ _ (Forall_verdad (map subida cambios)) Hc) as Hcc.
      eapply Forall_impl; [|exact Hcc]. intros p [_ Hp]. exact Hp.
    + pose proof (bajadas_cero _ (cambios_sin_perdida _ Hsin)) as Hc. fold cambios in Hc.
      apply (Forall_tail_slice _ 14) in Hc. apply py_sum_cero in Hc.
      rewrite (Qred_correct (py_sum (tail_slice 14 (map bajada cambios)) / qnat 14)).
      rewrite Hc. unfold Qdiv. apply Qmult_0_l.
Qed.

(** Claim C4, amended: on every series of at least 15 closes the RSI is
    computed, lies in [0, 100], and is 100 whenever no close is lower than
    its predecessor.  (The converse fails, see [rsi_cien_con_perdida]: the
    rounding to 2 decimals also yields 100 for a small loss.) *)
Theorem rsi_en_rango (precios : list Q) (H : (15 <= length precios)%nat) :
  exists r, calcular_rsi precios 14 = Ok (Some r) /\ 0 <= r <= 100 /\
    ((forall i, (S i < length precios)%nat -> nth i precios 0 <= nth (S i) precios 0) ->
     r = 100).
Proof. exact (calcular_rsi_acotado precios H). Qed.

Lemma rsi_en_rango_witness :
  (15 <= length cierres_perdida_inicial)%nat /\
  exists r, calcular_rsi cierres_perdida_inicial 14 = Ok (Some r) /\ 0 <= r <= 100 /\
    ((forall i, (S i < length cierres_perdida_inicial)%nat ->
       nth i cierres_perdida_inicial 0 <= nth (S i) cierres_perdida_inicial 0) -> r = 100).
Proof.
  split; [vm_compute; lia|]. apply (rsi_en_rango cierres_perdida_inicial). vm_compute; lia.
Defined.

(** ** Monotonicity of the score *)

Lemma score_compara cd1 cd2 ind :
  puntuar_precio_valoracion (fundamentals cd1) (sector cd1)
    = puntuar_precio_valoracion (fundamentals cd2) (sector cd2) ->
  (forall p1 p2, puntuar_fortaleza_financiera (fundamentals cd1) (sector cd1) = Ok p1 ->
     puntuar_fortaleza_financiera (fundamentals cd2) (sector cd2) = Ok p2 -> (p1 <= p2)%Z) ->
  (dividendo_ajustado cd1 <= dividendo_ajustado cd2)%Z ->
  (puntuar_crecimiento (fundamentals cd1) (sector cd1)
     <= puntuar_crecimiento (fundamentals cd2) (sector cd2))%Z ->
  shares_data cd1 = shares_data cd2 ->
  score_no_decrece cd1 cd2 ind.
Proof.
  intros Hp Hf Hd Hc Hsh.
  destruct (calcular_score_spec cd1 ind) as (pp1 & pf1 & Hp1 & Hf1 & s1 & E1 & T1).
  destruct (calcular_score_spec cd2 ind) as (pp2 & pf2 & Hp2 & Hf2 & s2 & E2 & T2).
  exists s1, s2. split; [exact E1|]. split; [exact E2|].
  rewrite Hp, Hp2 in Hp1. injection Hp1 as ->.
  specialize (Hf _ _ Hf1 Hf2). rewrite T1, T2, Hsh. lia.
Qed.

Lemma puntos_ventas_mono a b : a <= b -> (puntos_ventas a <= puntos_ventas b)%Z.
Proof. intro H. unfold puntos_ventas. qcases; try lia; exfalso; lra. Qed.

Lemma puntos_bpa_mono a b : a <= b -> (puntos_bpa a <= puntos_bpa b)%Z.
Proof. intro H. unfold puntos_bpa. qcases; try lia; exfalso; lra. Qed.

Lemma puntos_yield_mono a b : a <= b -> (puntos_yield a <= puntos_yield b)%Z.
Proof. intro H. unfold puntos_yield. qcases; try lia; exfalso; lra. Qed.

Lemma puntos_ratio_deuda_anti a b : a <= b -> (puntos_ratio_deuda b <= puntos_ratio_deuda a)%Z.
Proof. intro H. unfold puntos_ratio_deuda. qcases; try lia; exfalso; lra. Qed.

Lemma div_mono a b c : a <= b -> 0 < c -> Qred (a / c) <= Qred (b / c).
Proof.
  intros H Hc. rewrite (Qred_correct (a / c)), (Qred_correct (b / c)).
  unfold Qdiv. apply Qmult_le_compat_r; [exact H|].
  apply Qinv_le_0_compat. lra.
Qed.

Lemma fortaleza_deuda_anti f s v1 v2 : v1 <= v2 ->
  forall p1 p2,
    puntuar_fortaleza_financiera (Some (con_debt_to_equity f v2)) s = Ok p1 ->
    puntuar_fortaleza_financiera (Some (con_debt_to_equity f v1)) s = Ok p2 ->
    (p1 <= p2)%Z.
Proof.
  intros H p1 p2. destruct s as [s|]; simpl;
    [|intros E1 E2; injection E1 as <-; injection E2 as <-; lia].
  rewrite !division_protegida_ok by guarda_ultima. cbn [bind].
  destruct (truthy (get_or (sector_debt_to_equity s) 1)
            && qlt 0 (get_or (sector_debt_to_equity s) 1)) eqn:G.
  - apply andb_true_iff in G as [_ G]. apply qlt_true in G.
    pose proof (puntos_ratio_deuda_anti _ _ (div_mono _ _ _ H G)) as Hr. revert Hr.
    generalize (puntos_ratio_deuda (Qred (v1 / get_or (sector_debt_to_equity s) 1)))
               (puntos_ratio_deuda (Qred (v2 / get_or (sector_debt_to_equity s) 1))).
    intros z1 z2 Hr E1 E2. injection E1 as <-. injection E2 as <-. lia.
  - intros E1 E2. injection E1 as <-. injection E2 as <-. lia.
Qed.

Lemma fortaleza_igual cd1 cd2 :
  puntuar_fortaleza_financiera (fundamentals cd1) (sector cd1)
    = puntuar_fortaleza_financiera (fundamentals cd2) (sector cd2) ->
  forall p1 p2, puntuar_fortaleza_financiera (fundamentals cd1) (sector cd1) = Ok p1 ->
    puntuar_fortaleza_financiera (fundamentals cd2) (sector cd2) = Ok p2 -> (p1 <= p2)%Z.
Proof. intros E p1 p2 E1 E2. rewrite E, E2 in E1. injection E1 as ->. lia. Qed.

Lemma dividendo_mismos_campos dv f1 f2 :
  payout_ratio f1 = payout_ratio f2 -> has_buyback f1 = has_buyback f2 ->
  puntuar_dividendo dv (Some f1) = puntuar_dividendo dv (Some f2).
Proof. intros E1 E2. destruct dv; simpl; rewrite ?E1, ?E2; reflexivity. Qed.

(** Claim C6: with every other input fixed, [score_total] does not decrease
    when [sales_growth_5y], [eps_growth_5y] or [dividend_yield_at_buy] grows,
    and does not increase when [debt_to_equity] grows, for any sector data
    (so, for a fixed positive sector debt/equity, when the debt ratio to the
    sector grows). *)
Theorem score_monotono (cd : CompanyData) (ind : option Indicadores)
  (f : Fundamentals) (d : Dividends) (v1 v2 : Q) (H : v1 <= v2) :
  score_no_decrece (con_fundamentals cd (con_sales_growth_5y f v1))
                   (con_fundamentals cd (con_sales_growth_5y f v2)) ind /\
  score_no_decrece (con_fundamentals cd (con_eps_growth_5y f v1))
                   (con_fundamentals cd (con_eps_growth_5y f v2)) ind /\
  score_no_decrece (con_dividends cd (con_dividend_yield_at_buy d v1))
                   (con_dividends cd (con_dividend_yield_at_buy d v2)) ind /\
  score_no_decrece (con_fundamentals cd (con_debt_to_equity f v2))
                   (con_fundamentals cd (con_debt_to_equity f v1)) ind.
Proof.
  split; [|split; [|split]]; apply score_compara.
  (* sales_growth_5y *)
  - destruct (sector cd); reflexivity.
  - apply fortaleza_igual. destruct (sector cd); reflexivity.
  - unfold dividendo_ajustado. simpl.
    rewrite (dividendo_mismos_campos _ _ (con_sales_growth_5y f v2)) by reflexivity. lia.
  - simpl. pose proof (puntos_ventas_mono _ _ H). lia.
  - reflexivity.
  (* eps_growth_5y *)
  - destruct (sector cd); reflexivity.
  - apply fortaleza_igual. destruct (sector cd); reflexivity.
  - unfold dividendo_ajustado. simpl.
    rewrite (dividendo_mismos_campos _ _ (con_eps_growth_5y f v2)) by reflexivity. lia.
  - simpl. pose proof (puntos_bpa_mono _ _ H). lia.
  - reflexivity.
  (* dividend_yield_at_buy *)
  - reflexivity.
  - apply fortaleza_igual. reflexivity.
  - unfold dividendo_ajustado. simpl.
    pose proof (puntos_yield_mono _ _ H).
    destruct (qlt (tendencia_acciones (shares_data cd)) 0); lia.
  - apply Z.le_refl.
  - reflexivity.
  (* debt_to_equity *)
  - destruct (sector cd); reflexivity.
  - apply fortaleza_deuda_anti. exact H.
  - unfold dividendo_ajustado. simpl.
    rewrite (dividendo_mismos_campos _ _ (con_debt_to_equity f v1)) by reflexivity. lia.
  - simpl. lia.
  - reflexivity.
Qed.

Lemma score_monotono_witness :
  3 <= 12 /\
  score_no_decrece (con_fundamentals company_ejemplo (con_sales_growth_5y fundamentales_ejemplo 3))
                   (con_fundamentals company_ejemplo (con_sales_growth_5y fundamentales_ejemplo 12)) None /\
  score_no_decrece (con_fundamentals company_ejemplo (con_eps_growth_5y fundamentales_ejemplo 3))
                   (con_fundamentals company_ejemplo (con_eps_growth_5y fundamentales_ejemplo 12)) None /\
  score_no_decrece (con_dividends company_ejemplo (con_dividend_yield_at_buy dividendos_ejemplo 3))
                   (con_dividends company_ejemplo (con_dividend_yield_at_buy dividendos_ejemplo 12)) None /\
  score_no_decrece (con_fundamentals company_ejemplo (con_debt_to_equity fundamentales_ejemplo 12))
                   (con_fundamentals company_ejemplo (con_debt_to_equity fundamentales_ejemplo 3)) None.
Proof.
  split; [unfold Qle; simpl; lia|].
  apply (score_monotono company_ejemplo None fundamentales_ejemplo dividendos_ejemplo 3 12).
  unfold Qle; simpl; lia.
Defined.

(** ** The narrative lists *)

Lemma indicadores_con_rsi h b i :
  calcular_todos_indicadores h b = Ok (Some i) -> exists r, rsi i = Some r.
Proof.
  intro E. unfold calcular_todos_indicadores in E.
  destruct (length h <? 30)%nat eqn:L; [discriminate|]. apply Nat.ltb_ge in L.
  destruct (calcular_rsi_acotado (map close h)) as (r & Er & _); [rewrite length_map; lia|].
  rewrite Er in E.
  repeat (cbn [bind] in E;
          match type of E with
          | context [bind ?m _] =>
              let a := fresh "a" in destruct m as [a|?]; [|cbn [bind] in E; discriminate]
          end).
  injection E as <-. eexists. reflexivity.
Qed.

Lemma valor_rsi_ok h b ind :
  calcular_todos_indicadores h b = Ok ind -> exists r, valor_rsi ind = Ok r.
Proof.
  intro E. destruct ind as [i|]; [|eexists; reflexivity].
  destruct (indicadores_con_rsi _ _ _ E) as [r Hr].
  simpl. rewrite Hr. eexists. reflexivity.
Qed.

Lemma riesgos_detectados_ok cd ind r :
  valor_rsi ind = Ok r -> exists l, riesgos_detectados cd ind = Ok l.
Proof. intro E. unfold riesgos_detectados. rewrite E. eexists. reflexivity. Qed.

Lemma oportunidades_detectadas_ok cd ind r :
  valor_rsi ind = Ok r -> exists l, oportunidades_detectadas cd ind = Ok l.
Proof. intro E. unfold oportunidades_detectadas. rewrite E. eexists. reflexivity. Qed.

(** Claim C9: on the indicator bundle the engine produces (including [None]
    for a short history) and any company data, with or without fundamentals,
    sector, shares or dividends, [identificar_riesgos] and
    [identificar_oportunidades] return non-empty lists: the detected findings
    when there are some, and exactly the single fallback finding otherwise.
    A completed analysis therefore carries both lists non-empty. *)
Theorem listas_nunca_vacias (cd : CompanyData) (historical : list Bar) (b : Q)
  (ind : option Indicadores) (H : calcular_todos_indicadores historical b = Ok ind) :
  exists rs ops,
    identificar_riesgos cd ind = Ok rs /\ identificar_oportunidades cd ind = Ok ops /\
    rs <> [] /\ ops <> [] /\
    (riesgos_detectados cd ind = Ok [] -> rs = [IncertidumbreMacroeconomica]) /\
    (forall l, riesgos_detectados cd ind = Ok l -> l <> [] -> rs = l) /\
    (oportunidades_detectadas cd ind = Ok [] -> ops = [ExpansionMercadosEmergentes]) /\
    (forall l, oportunidades_detectadas cd ind = Ok l -> l <> [] -> ops = l) /\
    (forall a, generar_analisis_completo cd ind = Ok a ->
       lista_riesgos a <> [] /\ oportunidades a <> []).
Proof.
  destruct (valor_rsi_ok _ _ _ H) as [r Hr].
  destruct (riesgos_detectados_ok cd _ _ Hr) as [lr Hlr].
  destruct (oportunidades_detectadas_ok cd _ _ Hr) as [lo Hlo].
  unfold identificar_riesgos, identificar_oportunidades.
  assert (Ha : forall a, generar_analisis_completo cd ind = Ok a ->
            lista_riesgos a = match lr with [] => [IncertidumbreMacroeconomica] | _ => lr end /\ oportunidades a = match lo with [] => [ExpansionMercadosEmergentes] | _ => lo end).
  { intros a Ea. unfold generar_analisis_completo in Ea.
    destruct (calcular_score cd ind); cbn [bind] in Ea; [|discriminate].
    destruct (generar_resumen_ejecutivo cd ind a0); cbn [bind] in Ea; [|discriminate].
    unfold identificar_riesgos, identificar_oportunidades in Ea. rewrite Hlr, Hlo in Ea.
    cbn [bind] in Ea. injection Ea as <-. split; reflexivity. }
  exists (match lr with [] => [IncertidumbreMacroeconomica] | _ => lr end), (match lo with [] => [ExpansionMercadosEmergentes] | _ => lo end).
  rewrite Hlr, Hlo. cbn [bind].
  split; [reflexivity|]. split; [reflexivity|].
  split; [destruct lr; discriminate|]. split; [destruct lo; discriminate|].
  split; [intro E; injection E as ->; reflexivity|].
  split; [intros l E Hl; injection E as ->;
          destruct l; [congruence|reflexivity]|].
  split; [intro E; injection E as ->; reflexivity|].
  split; [intros l E Hl; injection E as ->;
          destruct l; [congruence|reflexivity]|].
  intros a Ea. destruct (Ha a Ea) as [-> ->].
  split; [destruct lr | destruct lo]; discriminate.
Qed.

Lemma listas_nunca_vacias_witness :
  calcular_todos_indicadores historia_bajista 1 = Ok indicadores_bajistas /\
  exists rs ops,
    identificar_riesgos company_ejemplo indicadores_bajistas = Ok rs /\
    identificar_oportunidades company_ejemplo indicadores_bajistas = Ok ops /\
    rs <> [] /\ ops <> [] /\
    (riesgos_detectados company_ejemplo indicadores_bajistas = Ok [] ->
       rs = [IncertidumbreMacroeconomica]) /\
    (forall l, riesgos_detectados company_ejemplo indicadores_bajistas = Ok l -> l <> [] -> rs = l) /\
    (oportunidades_detectadas company_ejemplo indicadores_bajistas = Ok [] ->
       ops = [ExpansionMercadosEmergentes]) /\
    (forall l, oportunidades_detectadas company_ejemplo indicadores_bajistas = Ok l -> l <> [] ->
       ops = l) /\
    (forall a, generar_analisis_completo company_ejemplo indicadores_bajistas = Ok a ->
       lista_riesgos a <> [] /\ oportunidades a <> []).
Proof.
  assert (E : calcular_todos_indicadores historia_bajista 1 = Ok indicadores_bajistas)
    by (vm_compute; reflexivity).
  split; [exact E|].
  apply (listas_nunca_vacias company_ejemplo historia_bajista 1 indicadores_bajistas E).
Defined.

(** ** The indicator engine never raises *)

Lemma tail_slice_length {A : Type} k (l : list A) :
  (0 < k <= length l)%nat -> length (tail_slice k l) = k.
Proof. intro H. destruct k as [|k]; [lia|]. simpl. rewrite length_skipn. lia. Qed.

Lemma py_last_ok {A : Type} (l : list A) : (0 < length l)%nat -> exists v, py_last l = Ok v.
Proof. destruct l as [|x l]; simpl; [lia|]. intros _. eexists. reflexivity. Qed.

Lemma pdiv_qlen {A : Type} (l : list A) a :
  (0 < length l)%nat -> pdiv a (qlen l) = Ok (Qred (a / qlen l)).
Proof. intro H. apply pdiv_pos. apply qnat_pos. exact H. Qed.

Lemma calcular_media_movil_ok l p : (0 < p)%nat ->
  exists r, calcular_media_movil l p = Ok r /\ ((length l < p)%nat -> r = None).
Proof.
  intro Hp. unfold calcular_media_movil. destruct (length l <? p)%nat eqn:E.
  - exists None. split; reflexivity.
  - apply Nat.ltb_ge in E. rewrite pdiv_qlen by (rewrite tail_slice_length; lia).
    cbn [bind]. eexists. split; [reflexivity|lia].
Qed.

Lemma calcular_bollinger_ok l p d : (0 < p)%nat -> exists r, calcular_bollinger l p d = Ok r.
Proof.
  intro Hp. unfold calcular_bollinger. destruct (length l <? p)%nat eqn:E.
  - eexists. reflexivity.
  - apply Nat.ltb_ge in E. destruct (py_last_ok l) as [v Hv]; [lia|]. rewrite Hv. cbn [bind].
    rewrite pdiv_qlen by (rewrite tail_slice_length; lia). cbn [bind].
    rewrite pdiv_qlen by (rewrite length_map, tail_slice_length; lia). cbn [bind].
    eexists. reflexivity.
Qed.

Lemma analizar_volumen_ok h p : (0 < p)%nat -> exists r, analizar_volumen h p = Ok r.
Proof.
  intro Hp. unfold analizar_volumen. destruct (length h <? p)%nat eqn:E.
  - eexists. reflexivity.
  - apply Nat.ltb_ge in E. destruct (py_last_ok h) as [v Hv]; [lia|]. rewrite Hv. cbn [bind].
    set (vs := map (fun d => get_or (volume d) 0) (tail_slice p h)).
    assert (Hm : exists m, match vs with [] => Ok 0 | _ => pdiv (py_sum vs) (qlen vs) end = Ok m).
    { destruct vs as [|x r] eqn:Ev; [eexists; reflexivity|].
      rewrite <- Ev, pdiv_qlen by (rewrite Ev; simpl; lia). eexists. reflexivity. }
    destruct Hm as [m Hm]. rewrite Hm. cbn [bind].
    destruct (qlt 0 m) eqn:G.
    + apply qlt_true in G. rewrite pdiv_pos by exact G. cbn [bind]. eexists. reflexivity.
    + eexists. reflexivity.
Qed.

Lemma calcular_zona_entrada_ok l m b : exists z, calcular_zona_entrada l m b = Ok z.
Proof.
  unfold calcular_zona_entrada. destruct m as [m|], b as [b|]; try (eexists; reflexivity).
  destruct (negb (truthy m)); [eexists; reflexivity|].
  match goal with
  | |- context [if ?c then bind (pdiv ?x ?y) (fun q => Ok (q * 100)) else Ok 0] =>
      destruct c eqn:G
  end.
  - apply andb_true_iff in G as [_ G]. apply qlt_true in G.
    rewrite pdiv_pos by exact G. cbn [bind]. eexists. reflexivity.
  - eexists. reflexivity.
Qed.

Lemma calcular_todos_indicadores_ok h b :
  exists ind, calcular_todos_indicadores h b = Ok ind /\
    ((30 <= length h)%nat -> (length h < 200)%nat -> exists i, ind = Some i /\ mm200 i = None).
Proof.
  unfold calcular_todos_indicadores. destruct (length h <? 30)%nat eqn:L.
  - apply Nat.ltb_lt in L. exists None. split; [reflexivity|lia].
  - apply Nat.ltb_ge in L.
    set (precios := map close h).
    assert (Hlen : length precios = length h) by apply length_map.
    destruct (py_last_ok precios) as [v Hv]; [lia|]. rewrite Hv. cbn [bind].
    destruct (calcular_media_movil_ok precios 50) as (m50 & E50 & _); [lia|].
    destruct (calcular_media_movil_ok precios 100) as (m100 & E100 & _); [lia|].
    destruct (calcular_media_movil_ok precios 200) as (m200 & E200 & N200); [lia|].
    rewrite E50, E100, E200. cbn [bind].
    destruct (calcular_rsi_acotado precios) as (r & Er & _); [lia|]. rewrite Er. cbn [bind].
    destruct (calcular_macd_spec precios) as (m & _ & Em & _). rewrite Em. cbn [bind].
    destruct (calcular_bollinger_ok precios 20 2) as [bo Eb]; [lia|]. rewrite Eb. cbn [bind].
    destruct (analizar_volumen_ok h 30) as [vo Evo]; [lia|]. rewrite Evo. cbn [bind].
    destruct (calcular_zona_entrada_ok precios m200 bo) as [z Ez]. rewrite Ez. cbn [bind].
    eexists. split; [reflexivity|].
    intros _ H200. eexists. split; [reflexivity|]. simpl.
    rewrite N200 by lia. reflexivity.
Qed.

(** Claim C2 (code defect): the divisions are all guarded, so the indicator
    engine and the score never raise; but with 30 to 199 bars the bundle's
    [mm200] is [None], and [generar_resumen_ejecutivo] reads it with
    [.get("mm200", {}).get(...)], which raises [AttributeError] on [None].
    Every analysis of such a history fails. *)
Theorem analisis_falla_sin_mm200 (cd : CompanyData) (h : list Bar)
  (H : (30 <= length h < 200)%nat) :
  (forall h' b', exists ind, calcular_todos_indicadores h' b' = Ok ind) /\
  (forall cd' ind', exists s, calcular_score cd' ind' = Ok s) /\
  analizar cd h = Err AttributeError.
Proof.
  split; [intros h' b'; destruct (calcular_todos_indicadores_ok h' b') as (i & E & _); eauto|].
  split; [intros cd' ind'; destruct (calcular_score_spec cd' ind') as (_ & _ & _ & _ & s & E & _); eauto|].
  unfold analizar.
  destruct (calcular_todos_indicadores_ok h (perfil_beta (profile cd))) as (ind & E & Hi).
  rewrite E. cbn [bind].
  destruct (Hi ltac:(lia) ltac:(lia)) as (i & -> & Hm).
  unfold generar_analisis_completo.
  destruct (calcular_score_spec cd (Some i)) as (_ & _ & _ & _ & s & Es & _).
  rewrite Es. cbn [bind].
  unfold generar_resumen_ejecutivo, mm200_encima_de. rewrite Hm. reflexivity.
Qed.

Lemma analisis_falla_sin_mm200_witness :
  (30 <= length historia_bajista < 200)%nat /\
  (forall h' b', exists ind, calcular_todos_indicadores h' b' = Ok ind) /\
  (forall cd' ind', exists s, calcular_score cd' ind' = Ok s) /\
  analizar company_ejemplo historia_bajista = Err AttributeError.
Proof.
  assert (H : (30 <= length historia_bajista < 200)%nat) by (simpl; lia).
  split; [exact H|]. apply (analisis_falla_sin_mm200 company_ejemplo historia_bajista H).
Defined.

(** ** Rounding *)

Lemma round_half_even_cotas (y : Q) :
  (Qfloor y <= round_half_even y <= Qfloor y + 1)%Z.
Proof.
  unfold round_half_even.
  destruct (qlt _ _); [lia|]. destruct (qlt _ _); [lia|]. destruct (Z.even _); lia.
Qed.

Lemma round_half_even_mono (x y : Q) : x <= y -> (round_half_even x <= round_half_even y)%Z.
Proof.
  intro H.
  assert (Hf : (Qfloor x <= Qfloor y)%Z) by (apply Qfloor_resp_le; exact H).
  destruct (Z.eq_dec (Qfloor x) (Qfloor y)) as [Eq|Ne].
  - unfold round_half_even. rewrite Eq.
    remember (Qfloor y) as f.
    destruct (Z.even f); qcases; try lia; exfalso; lra.
  - pose proof (round_half_even_cotas x). pose proof (round_half_even_cotas y). lia.
Qed.

Lemma inject_Z_le (a b : Z) : (a <= b)%Z -> inject_Z a <= inject_Z b.
Proof. intro H. rewrite <- Zle_Qle. exact H. Qed.

Lemma py_round_mono (nd : Z) (x y : Q) :
  (0 <= nd)%Z -> x <= y -> py_round nd x <= py_round nd y.
Proof.
  intros Hn H. unfold py_round.
  assert (Hs : 0 < inject_Z (10 ^ nd)).
  { change 0 with (inject_Z 0). rewrite <- Zlt_Qlt. apply Z.pow_pos_nonneg; lia. }
  apply div_mono; [|exact Hs]. apply inject_Z_le, round_half_even_mono.
  apply Qmult_le_compat_r; [exact H | lra].
Qed.

(** [round(x, 2)] keeps a bound given in whole cents. *)
Lemma py_round_2_centimos (lo hi : Z) (x : Q) :
  inject_Z lo <= 100 * x <= inject_Z hi ->
  inject_Z lo <= 100 * py_round 2 x <= inject_Z hi.
Proof.
  intros [H1 H2]. unfold py_round.
  replace (inject_Z (10 ^ 2)) with 100 by reflexivity.
  assert (Hr : (lo <= round_half_even (x * 100) <= hi)%Z).
  { apply round_half_even_rango. split; lra. }
  rewrite (Qred_correct (inject_Z (round_half_even (x * 100)) / 100)).
  rewrite Qmult_div_r by (intro C; discriminate).
  split; apply inject_Z_le; lia.
Qed.

Lemma qnat_S n : qnat (S n) == qnat n + 1.
Proof. unfold qnat. rewrite Nat2Z.inj_succ, <- Z.add_1_r, inject_Z_plus. reflexivity. Qed.

Lemma py_sum_cotas (lo hi : Q) l :
  Forall (fun x => lo <= x <= hi) l ->
  lo * qlen l <= py_sum l <= hi * qlen l.
Proof.
  unfold py_sum, qlen.
  assert (G : forall acc, Forall (fun x => lo <= x <= hi) l ->
            acc + lo * qnat (length l) <= fold_left (fun acc x => Qred (acc + x)) l acc
            <= acc + hi * qnat (length l)).
  { induction l as [|x l IH]; intros acc Hl; cbn [fold_left length].
    - replace (qnat 0) with 0 by reflexivity. split; lra.
    - inversion Hl as [|? ? Hx Hl']; subst.
      specialize (IH (Qred (acc + x)) Hl').
      pose proof (Qred_correct (acc + x)) as Hr. rewrite qnat_S.
      generalize dependent (fold_left (fun acc x => Qred (acc + x)) l (Qred (acc + x))).
      intros F IH. split; nra. }
  intro H. specialize (G 0 H). split; lra.
Qed.

(** ** Averages stay within the prices' range *)

Lemma centimos_div (lo hi : Z) l :
  Forall (centimos lo hi) l -> Forall (fun x => inject_Z lo / 100 <= x <= inject_Z hi / 100) l.
Proof.
  apply Forall_impl. intros x [H1 H2].
  pose proof (Qmult_div_r (inject_Z lo) 100 ltac:(discriminate)).
  pose proof (Qmult_div_r (inject_Z hi) 100 ltac:(discriminate)). split; lra.
Qed.

Lemma media_centimos (lo hi : Z) l :
  (0 < length l)%nat -> Forall (centimos lo hi) l ->
  centimos lo hi (Qred (py_sum l / qlen l)).
Proof.
  intros Hl H. apply centimos_div, py_sum_cotas in H.
  assert (Hk : 0 < qlen l) by (apply qnat_pos; exact Hl).
  pose proof (Qmult_div_r (inject_Z lo) 100 ltac:(discriminate)).
  pose proof (Qmult_div_r (inject_Z hi) 100 ltac:(discriminate)).
  unfold centimos. rewrite (Qred_correct (py_sum l / qlen l)).
  assert (inject_Z lo / 100 <= py_sum l / qlen l) by (apply Qle_shift_div_l; lra).
  assert (py_sum l / qlen l <= inject_Z hi / 100) by (apply Qle_shift_div_r; lra).
  split; lra.
Qed.

Lemma Forall_firstn {A : Type} (P : A -> Prop) n l : Forall P l -> Forall P (firstn n l).
Proof.
  revert l. induction n as [|n IH]; intros l H; [constructor|].
  destruct l as [|x l]; [constructor|]. inversion H; subst. simpl. constructor; auto.
Qed.

Lemma paso_ema_centimos (lo hi : Z) m e p :
  0 <= m <= 1 -> centimos lo hi e -> centimos lo hi p -> centimos lo hi (paso_ema m e p).
Proof.
  unfold centimos, paso_ema. intros [Hm0 Hm1] [He1 He2] [Hp1 Hp2].
  rewrite (Qred_correct ((p - e) * m + e)).
  assert (0 <= m * (100 * p - inject_Z lo)) by (apply Qmult_le_0_compat; lra).
  assert (0 <= (1 - m) * (100 * e - inject_Z lo)) by (apply Qmult_le_0_compat; lra).
  assert (0 <= m * (inject_Z hi - 100 * p)) by (apply Qmult_le_0_compat; lra).
  assert (0 <= (1 - m) * (inject_Z hi - 100 * e)) by (apply Qmult_le_0_compat; lra).
  split; nra.
Qed.

Lemma fold_paso_ema_centimos (lo hi : Z) m l e :
  0 <= m <= 1 -> Forall (centimos lo hi) l -> centimos lo hi e ->
  centimos lo hi (fold_left (paso_ema m) l e).
Proof.
  intros Hm. revert e. induction l as [|x l IH]; intros e Hl He; [exact He|].
  inversion Hl; subst. simpl. apply IH; [assumption|]. apply paso_ema_centimos; assumption.
Qed.

Lemma last_cualquiera {A : Type} (l : list A) d d' : l <> [] -> last l d = last l d'.
Proof.
  induction l as [|x l IH]; intro H; [congruence|].
  destruct l as [|y l]; [reflexivity|]. simpl in *. apply IH. discriminate.
Qed.

Lemma float_sqrt_nonneg x : 0 <= float_sqrt x.
Proof.
  unfold float_sqrt. apply div_nonneg.
  - apply (inject_Z_le 0). apply Z.sqrt_nonneg.
  - change 0 with (inject_Z 0). rewrite <- Zlt_Qlt. apply Z.mul_pos_pos; [lia|reflexivity].
Qed.

(** The simple moving average [calcular_media_movil]: [None] below
    [periodo] closes; otherwise a value that stays within any bounds, in
    whole cents, that every close respects (the rounding to 2 decimals
    never leaves them). *)
Theorem media_movil_acotada (precios : list Q) (periodo : nat) (lo hi : Z)
  (Hp : (0 < periodo)%nat) (Hb : Forall (centimos lo hi) precios) :
  ((length precios < periodo)%nat -> calcular_media_movil precios periodo = Ok None) /\
  ((periodo <= length precios)%nat ->
   exists v, calcular_media_movil precios periodo = Ok (Some v) /\ centimos lo hi v).
Proof.
  unfold calcular_media_movil. split.
  - intro H. apply Nat.ltb_lt in H. rewrite H. reflexivity.
  - intro H. replace (length precios <? periodo)%nat with false by (symmetry; apply Nat.ltb_ge; lia).
    assert (Hl : length (tail_slice periodo precios) = periodo) by (apply tail_slice_length; lia).
    rewrite pdiv_qlen by lia. cbn [bind]. eexists. split; [reflexivity|].
    apply py_round_2_centimos, media_centimos; [lia|]. apply Forall_tail_slice, Hb.
Qed.

Lemma media_movil_acotada_witness :
  (0 < 3)%nat /\ Forall (centimos 100 300) cierres_cortos /\
  ((length cierres_cortos < 3)%nat -> calcular_media_movil cierres_cortos 3 = Ok None) /\
  ((3 <= length cierres_cortos)%nat ->
   exists v, calcular_media_movil cierres_cortos 3 = Ok (Some v) /\ centimos 100 300 v).
Proof.
  assert (Hb : Forall (centimos 100 300) cierres_cortos)
    by (repeat constructor; unfold centimos, Qle; simpl; lia).
  split; [lia|]. split; [exact Hb|].
  apply (media_movil_acotada cierres_cortos 3 100 300); [lia | exact Hb].
Defined.

(** The exponential moving average [calcular_media_movil_exponencial]:
    [None] below [periodo] prices; otherwise a value within any whole-cent
    bounds of all the prices, since the seed is their mean and every step
    moves the average by the factor [2/(periodo+1)] towards a price. *)
Theorem ema_acotada (precios : list Q) (periodo : nat) (lo hi : Z)
  (Hp : (0 < periodo)%nat) (Hb : Forall (centimos lo hi) precios) :
  ((length precios < periodo)%nat -> calcular_media_movil_exponencial precios periodo = Ok None) /\
  ((periodo <= length precios)%nat ->
   exists v, calcular_media_movil_exponencial precios periodo = Ok (Some v) /\ centimos lo hi v).
Proof.
  unfold calcular_media_movil_exponencial. split.
  - intro H. apply Nat.ltb_lt in H. rewrite H. reflexivity.
  - intro H. replace (length precios <? periodo)%nat with false by (symmetry; apply Nat.ltb_ge; lia).
    pose proof (qnat_pos _ Hp) as Hq.
    rewrite pdiv_pos by lra. cbn [bind]. rewrite pdiv_pos by exact Hq. cbn [bind].
    eexists. split; [reflexivity|]. apply py_round_2_centimos.
    apply fold_paso_ema_centimos.
    + assert (Hq1 : 1 <= qnat periodo).
      { unfold qnat. change 1 with (inject_Z 1). apply inject_Z_le. lia. }
      rewrite (Qred_correct (2 / (qnat periodo + 1))). split.
      * apply Qle_shift_div_l; lra.
      * apply Qle_shift_div_r; lra.
    + apply Forall_skipn, Hb.
    + replace (qnat periodo) with (qlen (firstn periodo precios))
        by (unfold qlen; rewrite length_firstn; f_equal; lia).
      apply media_centimos; [rewrite length_firstn; lia|]. apply Forall_firstn, Hb.
Qed.

Lemma ema_acotada_witness :
  (0 < 2)%nat /\ Forall (centimos 100 300) (firstn 3 cierres_cortos) /\
  ((length (firstn 3 cierres_cortos) < 2)%nat -> calcular_media_movil_exponencial (firstn 3 cierres_cortos) 2 = Ok None) /\
  ((2 <= length (firstn 3 cierres_cortos))%nat ->
   exists v, calcular_media_movil_exponencial (firstn 3 cierres_cortos) 2 = Ok (Some v) /\ centimos 100 300 v).
Proof.
  assert (Hb : Forall (centimos 100 300) (firstn 3 cierres_cortos))
    by (repeat constructor; unfold centimos, Qle; simpl; lia).
  split; [lia|]. split; [exact Hb|].
  apply (ema_acotada (firstn 3 cierres_cortos) 2 100 300); [lia | exact Hb].
Defined.

(** ** Bollinger bands *)

(** [calcular_bollinger] with a non-negative number of deviations: [None]
    below [periodo] closes; otherwise the rounded bands are ordered
    lower <= middle <= upper, the position is "upper" exactly when the last
    close is above the upper band and "lower" exactly when it is below the
    lower band. *)
Theorem bandas_ordenadas (precios : list Q) (periodo : nat) (desviaciones : Q)
  (Hp : (0 < periodo)%nat) (Hd : 0 <= desviaciones) :
  ((length precios < periodo)%nat -> calcular_bollinger precios periodo desviaciones = Ok None) /\
  ((periodo <= length precios)%nat ->
   exists b, calcular_bollinger precios periodo desviaciones = Ok (Some b) /\
     banda_inferior b <= banda_media b <= banda_superior b /\
     (posicion b = BandaSuperior <-> banda_superior b < last precios 0) /\
     (posicion b = BandaInferior <-> last precios 0 < banda_inferior b)).
Proof.
  unfold calcular_bollinger. split.
  - intro H. apply Nat.ltb_lt in H. rewrite H. reflexivity.
  - intro H. replace (length precios <? periodo)%nat with false by (symmetry; apply Nat.ltb_ge; lia).
    destruct precios as [|x r] eqn:Ep; [simpl in H; lia|]. rewrite <- Ep in *.
    assert (Hlast : py_last precios = Ok (last precios 0)).
    { rewrite Ep. unfold py_last. f_equal. apply last_cualquiera. discriminate. }
    rewrite Hlast. cbn [bind].
    rewrite pdiv_qlen by (rewrite tail_slice_length; lia). cbn [bind].
    rewrite pdiv_qlen by (rewrite length_map, tail_slice_length; lia). cbn [bind].
    eexists. split; [reflexivity|]. cbn [banda_inferior banda_media banda_superior posicion].
    set (media := Qred (py_sum (tail_slice periodo precios) / qlen (tail_slice periodo precios))).
    set (sd := float_sqrt _).
    assert (Hsd : 0 <= desviaciones * sd) by (apply Qmult_le_0_compat; [exact Hd | apply float_sqrt_nonneg]).
    assert (Hi : py_round 2 (media - desviaciones * sd) <= py_round 2 media)
      by (apply py_round_mono; [lia | lra]).
    assert (Hs : py_round 2 media <= py_round 2 (media + desviaciones * sd))
      by (apply py_round_mono; [lia | lra]).
    split; [split; assumption|].
    set (sup := py_round 2 (media + desviaciones * sd)) in *.
    set (inf := py_round 2 (media - desviaciones * sd)) in *.
    set (p := last precios 0).
    split; split; qcases; intro Hx; try discriminate; try reflexivity; try assumption; try lra.
Qed.

Lemma bandas_ordenadas_witness :
  (0 < 3)%nat /\ 0 <= 2 /\
  ((length cierres_cortos < 3)%nat -> calcular_bollinger cierres_cortos 3 2 = Ok None) /\
  ((3 <= length cierres_cortos)%nat ->
   exists b, calcular_bollinger cierres_cortos 3 2 = Ok (Some b) /\
     banda_inferior b <= banda_media b <= banda_superior b /\
     (posicion b = BandaSuperior <-> banda_superior b < last cierres_cortos 0) /\
     (posicion b = BandaInferior <-> last cierres_cortos 0 < banda_inferior b)).
Proof.
  split; [lia|]. split; [unfold Qle; simpl; lia|].
  apply (bandas_ordenadas cierres_cortos 3 2); [lia | unfold Qle; simpl; lia].
Defined.

(** ** Risk levels *)

Lemma truthy_qlt t b : 0 <= t -> truthy b && qlt t b = qlt t b.
Proof.
  intro Ht. destruct (qlt t b) eqn:E; [|apply andb_false_r].
  apply qlt_true in E. rewrite andb_true_r. unfold truthy.
  destruct (Qeq_bool b 0) eqn:Z0; [|reflexivity].
  apply Qeq_bool_iff in Z0. rewrite Z0 in E. lra.
Qed.

Lemma escalon_mono t1 t2 b1 b2 : 0 <= t2 -> t2 <= t1 -> b1 <= b2 ->
  ((if truthy b1 && qlt t1 b1 then 2 else if truthy b1 && qlt t2 b1 then 1 else 0)
   <= (if truthy b2 && qlt t1 b2 then 2 else if truthy b2 && qlt t2 b2 then 1 else 0))%Z.
Proof.
  intros H2 H12 Hb. rewrite !truthy_qlt by lra. qcases; lia || lra.
Qed.

Lemma score_a_nivel_mono a b : (a <= b)%Z ->
  (nivel_rango (score_a_nivel a) <= nivel_rango (score_a_nivel b))%Z.
Proof.
  intro H. unfold score_a_nivel.
  destruct (3 <=? a)%Z eqn:A3; destruct (1 <=? a)%Z eqn:A1;
  destruct (3 <=? b)%Z eqn:B3; destruct (1 <=? b)%Z eqn:B1; simpl;
  rewrite ?Z.leb_le, ?Z.leb_gt in *; lia.
Qed.

Lemma score_a_nivel_no_alto a : (a <= 2)%Z -> score_a_nivel a <> Alto.
Proof.
  intro H. unfold score_a_nivel.
  destruct (3 <=? a)%Z eqn:A3; [apply Z.leb_le in A3; lia|].
  destruct (1 <=? a)%Z; discriminate.
Qed.

(** [evaluar_riesgos]: the long-term risk is never "Alto", and it is
    "Medio" exactly when beta exceeds 1.3; a larger beta never lowers the
    medium- or long-term risk, a larger volume change never lowers the
    short-term risk, and a close above the upper Bollinger band makes the
    short- and medium-term risks at least "Medio". *)
Theorem riesgos_monotonos (beta beta' : Q) (rsi : option Q) (vv vv' : Q) (pos : Posicion) :
  riesgo_largo_plazo (evaluar_riesgos beta rsi vv pos) <> Alto /\
  (riesgo_largo_plazo (evaluar_riesgos beta rsi vv pos) = Medio <-> 13 # 10 < beta) /\
  (beta <= beta' ->
   (nivel_rango (riesgo_medio_plazo (evaluar_riesgos beta rsi vv pos))
    <= nivel_rango (riesgo_medio_plazo (evaluar_riesgos beta' rsi vv pos)))%Z /\
   (nivel_rango (riesgo_largo_plazo (evaluar_riesgos beta rsi vv pos))
    <= nivel_rango (riesgo_largo_plazo (evaluar_riesgos beta' rsi vv pos)))%Z) /\
  (vv <= vv' ->
   (nivel_rango (riesgo_corto_plazo (evaluar_riesgos beta rsi vv pos))
    <= nivel_rango (riesgo_corto_plazo (evaluar_riesgos beta rsi vv' pos)))%Z) /\
  (pos = BandaSuperior ->
   riesgo_corto_plazo (evaluar_riesgos beta rsi vv pos) <> Bajo /\
   riesgo_medio_plazo (evaluar_riesgos beta rsi vv pos) <> Bajo).
Proof.
  unfold evaluar_riesgos; cbn [riesgo_corto_plazo riesgo_medio_plazo riesgo_largo_plazo].
  split; [|split; [|split; [|split]]].
  - apply score_a_nivel_no_alto. unfold riesgo_lp_score.
    destruct (_ && _); [lia|]. destruct (_ && _); lia.
  - unfold riesgo_lp_score. rewrite !truthy_qlt by lra. unfold score_a_nivel.
    qcases; split; intro H; try discriminate; try reflexivity; lra.
  - intro Hb. split; apply score_a_nivel_mono.
    + unfold riesgo_mp_score. apply Zplus_le_compat_r. apply escalon_mono; lra.
    + unfold riesgo_lp_score. apply escalon_mono; lra.
  - intro Hv. apply score_a_nivel_mono. unfold riesgo_cp_score.
    apply Zplus_le_compat_l. qcases; lia || lra.
  - intros ->. unfold riesgo_cp_score, riesgo_mp_score, score_a_nivel. simpl es_banda_superior.
    split.
    + destruct (_ && _); [|destruct (_ && _)]; qcases; discriminate.
    + destruct (_ && _); [|destruct (_ && _)]; discriminate.
Qed.

(** ** Volume *)

Lemma Forall_last {A : Type} (P : A -> Prop) l d : Forall P l -> P d -> P (last l d).
Proof.
  intros H Hd. induction H as [|x l Hx H IH]; [exact Hd|].
  destruct l as [|y l]; [exact Hx | exact IH].
Qed.

Lemma py_round_cero nd : py_round nd 0 = 0.
Proof. unfold py_round, round_half_even. cbv -[Z.pow]. reflexivity. Qed.

Lemma py_round_nonneg nd x : (0 <= nd)%Z -> 0 <= x -> 0 <= py_round nd x.
Proof.
  intros Hn Hx. replace 0 with (py_round nd 0) at 1 by apply py_round_cero.
  apply py_round_mono; assumption.
Qed.

(** [analizar_volumen] with non-negative volumes (a missing volume counts
    as 0): with fewer than [dias_promedio] bars every field is 0; otherwise
    the average is non-negative and the change is never below -100%. *)
Theorem volumen_acotado (datos : list Bar) (dias_promedio : nat)
  (Hp : (0 < dias_promedio)%nat)
  (Hv : Forall (fun d => 0 <= get_or (volume d) 0) datos) :
  exists v, analizar_volumen datos dias_promedio = Ok v /\
    ((length datos < dias_promedio)%nat ->
     v = {| volumen_actual := 0; volumen_promedio_30d := 0; variacion_pct := 0 |}) /\
    0 <= volumen_actual v /\ 0 <= volumen_promedio_30d v /\ -100 <= variacion_pct v.
Proof.
  unfold analizar_volumen. destruct (length datos <? dias_promedio)%nat eqn:E.
  - eexists. split; [reflexivity|]. cbn. split; [reflexivity|]. lra.
  - apply Nat.ltb_ge in E. destruct datos as [|x r] eqn:Ed; [simpl in E; lia|].
    rewrite <- Ed in *. assert (Hu : py_last datos = Ok (last datos x)) by (rewrite Ed; reflexivity).
    rewrite Hu. cbn [bind].
    assert (Ha : 0 <= get_or (volume (last datos x)) 0).
    { apply (Forall_last (fun d => 0 <= get_or (volume d) 0)); [exact Hv|].
      rewrite Ed in Hv. inversion Hv; assumption. }
    set (va := get_or (volume (last datos x)) 0) in *.
    set (vs := map (fun d => get_or (volume d) 0) (tail_slice dias_promedio datos)).
    assert (Hvs : Forall (fun q => 0 <= q) vs).
    { unfold vs. apply Forall_map. apply Forall_tail_slice. exact Hv. }
    assert (Hm : exists m, match vs with [] => Ok 0 | _ => pdiv (py_sum vs) (qlen vs) end = Ok m
                           /\ 0 <= m).
    { destruct vs as [|y s] eqn:Ev; [eexists; split; [reflexivity | lra]|].
      rewrite <- Ev, pdiv_qlen by (rewrite Ev; simpl; lia). eexists. split; [reflexivity|].
      apply div_nonneg; [apply py_sum_nonneg; rewrite Ev; exact Hvs | apply qnat_pos; rewrite Ev; simpl; lia]. }
    destruct Hm as [m [Hm Hm0]]. rewrite Hm. cbn [bind].
    destruct (qlt 0 m) eqn:G.
    + apply qlt_true in G. rewrite pdiv_pos by exact G. cbn [bind].
      eexists. split; [reflexivity|]. cbn [volumen_actual volumen_promedio_30d variacion_pct].
      split; [intro; lia|]. split; [exact Ha|]. split; [apply py_round_nonneg; [lia | exact Hm0]|].
      replace (-100) with (py_round 2 (-100)) by reflexivity.
      apply py_round_mono; [lia|]. rewrite (Qred_correct ((va - m) / m)).
      assert (Hq : -1 <= (va - m) / m).
      { apply Qle_shift_div_l; [exact G | lra]. }
      lra.
    + eexists. split; [reflexivity|]. cbn [volumen_actual volumen_promedio_30d variacion_pct].
      split; [intro; lia|]. split; [exact Ha|]. split; [apply py_round_nonneg; [lia | exact Hm0]|].
      rewrite py_round_cero. unfold Qle; simpl; lia.
Qed.

Lemma volumen_acotado_witness :
  (0 < 2)%nat /\ Forall (fun d => 0 <= get_or (volume d) 0) barras_ejemplo /\
  exists v, analizar_volumen barras_ejemplo 2 = Ok v /\
    ((length barras_ejemplo < 2)%nat ->
     v = {| volumen_actual := 0; volumen_promedio_30d := 0; variacion_pct := 0 |}) /\
    0 <= volumen_actual v /\ 0 <= volumen_promedio_30d v /\ -100 <= variacion_pct v.
Proof.
  assert (Hv : Forall (fun d => 0 <= get_or (volume d) 0) barras_ejemplo)
    by (unfold barras_ejemplo; repeat constructor; cbn; unfold Qle; simpl; lia).
  split; [lia|]. split; [exact Hv|].
  apply (volumen_acotado barras_ejemplo 2); [lia | exact Hv].
Defined.

(** ** Entry zone *)

(** [calcular_zona_entrada] never fails. Its state is "insufficient data"
    exactly when the 200-day average is missing or 0 or the bands are
    missing. Otherwise the zone is ordered, the state is "active" exactly
    when the last close is at most the zone's top, and the distance to the
    zone is non-negative and 0 whenever the zone is active. *)
Theorem zona_entrada_coherente (precios : list Q) (mm200 : option Q) (b : option Bollinger) :
  exists z, calcular_zona_entrada precios mm200 b = Ok z /\
    (estado z = DatosInsuficientes <-> get_or mm200 0 == 0 \/ b = None) /\
    (estado z = DatosInsuficientes -> z = zona_insuficiente) /\
    zona_ideal_min z <= zona_ideal_max z /\
    0 <= distancia_zona_pct z /\
    (estado z = ZonaEntradaActiva -> distancia_zona_pct z = 0) /\
    (estado z <> DatosInsuficientes ->
     (estado z = ZonaEntradaActiva <-> last precios 0 <= zona_ideal_max z)).
Proof.
  assert (Hp : match precios with [] => 0 | x :: _ => last precios x end = last precios 0).
  { destruct precios as [|x r]; [reflexivity|]. apply last_cualquiera. discriminate. }
  assert (Hins : forall P : Prop, P ->
            exists z, Ok zona_insuficiente = Ok z /\ (estado z = DatosInsuficientes <-> P) /\
              (estado z = DatosInsuficientes -> z = zona_insuficiente) /\
              zona_ideal_min z <= zona_ideal_max z /\ 0 <= distancia_zona_pct z /\
              (estado z = ZonaEntradaActiva -> distancia_zona_pct z = 0) /\
              (estado z <> DatosInsuficientes ->
               (estado z = ZonaEntradaActiva <-> last precios 0 <= zona_ideal_max z))).
  { intros P HP. exists zona_insuficiente. cbn.
    repeat split; try tauto; try discriminate; try lra. }
  unfold calcular_zona_entrada. rewrite Hp.
  destruct mm200 as [m|], b as [b|]; cbn [get_or];
    try (apply Hins; first [left; reflexivity | right; reflexivity]).
  destruct (truthy m) eqn:T; cbn [negb].
  2:{ apply Hins. left. unfold truthy in T. apply negb_false_iff, Qeq_bool_iff in T. exact T. }
  assert (Hm : ~ m == 0).
  { unfold truthy in T. apply negb_true_iff in T. intro C. apply Qeq_bool_iff in C. congruence. }
  set (p := last precios 0).
  set (zmin := py_round 2 (py_min m (banda_inferior b))).
  set (zmax := py_round 2 (py_max m (banda_inferior b))).
  assert (Hz : zmin <= zmax).
  { apply py_round_mono; [lia|]. unfold py_min, py_max. qcases; lra. }
  destruct (qlt zmax p && qlt 0 p) eqn:G.
  - apply andb_true_iff in G as [G1 G2]. apply qlt_true in G1, G2.
    rewrite pdiv_pos by exact G2. cbn [bind].
    eexists. split; [reflexivity|]. cbn [estado zona_ideal_min zona_ideal_max distancia_zona_pct].
    assert (Hd : 0 <= py_round 2 (Qred ((p - zmax) / p) * 100)).
    { apply py_round_nonneg; [lia|]. apply Qmult_le_0_compat; [|lra].
      apply div_nonneg; lra. }
    replace (qle p zmax) with false
      by (symmetry; unfold qle; apply not_true_iff_false; intro C; apply Qle_bool_iff in C; lra).
    split; [split; [discriminate | intros [C|C]; [contradiction | discriminate]]|].
    repeat split; try discriminate; try assumption; lra.
  - eexists. split; [reflexivity|]. cbn [estado zona_ideal_min zona_ideal_max distancia_zona_pct].
    assert (H0 : py_round 2 0 = 0) by reflexivity. rewrite H0.
    destruct (qle p zmax) eqn:L.
    + apply qle_true in L.
      split; [split; [discriminate | intros [C|C]; [contradiction | discriminate]]|].
      repeat split; try discriminate; try assumption; lra.
    + apply qle_false in L.
      split; [split; [discriminate | intros [C|C]; [contradiction | discriminate]]|].
      repeat split; try discriminate; try assumption; try lra.
Qed.

(** ** Score breakdown *)

Ltac ramas := repeat match goal with |- context [if ?c then _ else _] => destruct c end.

Lemma puntos_ratio_per_rango r : (1 <= puntos_ratio_per r <= 8)%Z.
Proof. unfold puntos_ratio_per. ramas; lia. Qed.
Lemma puntos_ratio_pb_rango r : (1 <= puntos_ratio_pb r <= 7)%Z.
Proof. unfold puntos_ratio_pb. ramas; lia. Qed.
Lemma puntos_ratio_deuda_rango r : (1 <= puntos_ratio_deuda r <= 8)%Z.
Proof. unfold puntos_ratio_deuda. ramas; lia. Qed.
Lemma puntos_ratio_margen_rango r : (1 <= puntos_ratio_margen r <= 7)%Z.
Proof. unfold puntos_ratio_margen. ramas; lia. Qed.
Lemma puntos_ventas_rango r : (0 <= puntos_ventas r <= 8)%Z.
Proof. unfold puntos_ventas. ramas; lia. Qed.
Lemma puntos_bpa_rango r : (0 <= puntos_bpa r <= 7)%Z.
Proof. unfold puntos_bpa. ramas; lia. Qed.
Lemma puntos_yield_rango r : (0 <= puntos_yield r <= 4)%Z.
Proof. unfold puntos_yield. ramas; lia. Qed.
Lemma puntos_crecimiento_dividendo_rango a b : (0 <= puntos_crecimiento_dividendo a b <= 4)%Z.
Proof. unfold puntos_crecimiento_dividendo. ramas; lia. Qed.
Lemma puntos_payout_rango r : (0 <= puntos_payout r <= 3)%Z.
Proof. unfold puntos_payout. ramas; lia. Qed.
Lemma puntos_rsi_rango r : (1 <= puntos_rsi r <= 4)%Z.
Proof. unfold puntos_rsi. ramas; lia. Qed.
Lemma puntos_posicion_rango p : (1 <= puntos_posicion p <= 3)%Z.
Proof. destruct p; simpl; lia. Qed.
Lemma puntos_nivel_rango n : (0 <= puntos_nivel n <= 3)%Z.
Proof. destruct n; simpl; lia. Qed.

Ltac cotas_bandas :=
  repeat match goal with
  | |- context [puntos_ratio_per ?x] =>
      generalize (puntos_ratio_per_rango x); generalize (puntos_ratio_per x); intros
  | |- context [puntos_ratio_pb ?x] =>
      generalize (puntos_ratio_pb_rango x); generalize (puntos_ratio_pb x); intros
  | |- context [puntos_ratio_deuda ?x] =>
      generalize (puntos_ratio_deuda_rango x); generalize (puntos_ratio_deuda x); intros
  | |- context [puntos_ratio_margen ?x] =>
      generalize (puntos_ratio_margen_rango x); generalize (puntos_ratio_margen x); intros
  | |- context [puntos_ventas ?x] =>
      generalize (puntos_ventas_rango x); generalize (puntos_ventas x); intros
  | |- context [puntos_bpa ?x] =>
      generalize (puntos_bpa_rango x); generalize (puntos_bpa x); intros
  | |- context [puntos_yield ?x] =>
      generalize (puntos_yield_rango x); generalize (puntos_yield x); intros
  | |- context [puntos_crecimiento_dividendo ?x ?y] =>
      generalize (puntos_crecimiento_dividendo_rango x y);
      generalize (puntos_crecimiento_dividendo x y); intros
  | |- context [puntos_payout ?x] =>
      generalize (puntos_payout_rango x); generalize (puntos_payout x); intros
  | |- context [puntos_rsi ?x] =>
      generalize (puntos_rsi_rango x); generalize (puntos_rsi x); intros
  | |- context [puntos_posicion ?x] =>
      generalize (puntos_posicion_rango x); generalize (puntos_posicion x); intros
  | |- context [puntos_nivel ?x] =>
      generalize (puntos_nivel_rango x); generalize (puntos_nivel x); intros
  end.

Lemma Ok_inj {A : Type} (a b : A) : Ok a = Ok b -> a = b.
Proof. intro E. injection E. tauto. Qed.

Lemma puntuar_precio_valoracion_rango f s p :
  puntuar_precio_valoracion f s = Ok p -> (2 <= p <= 15)%Z.
Proof.
  unfold puntuar_precio_valoracion. destruct f as [f|], s as [s|];
    try (intro E; injection E as <-; lia).
  repeat match goal with
  | |- context [if ?c then _ else _] => destruct c
  | |- context [pdiv ?a ?b] => destruct (pdiv a b)
  end; cbn [bind]; intro E; try discriminate; apply Ok_inj in E; subst p; cotas_bandas; lia.
Qed.

Lemma puntuar_fortaleza_financiera_rango f s p :
  puntuar_fortaleza_financiera f s = Ok p -> (2 <= p <= 15)%Z.
Proof.
  unfold puntuar_fortaleza_financiera. destruct f as [f|], s as [s|];
    try (intro E; injection E as <-; lia).
  repeat match goal with
  | |- context [if ?c then _ else _] => destruct c
  | |- context [pdiv ?a ?b] => destruct (pdiv a b)
  end; cbn [bind]; intro E; try discriminate; apply Ok_inj in E; subst p; cotas_bandas; lia.
Qed.

Lemma puntuar_dividendo_rango d f : (1 <= puntuar_dividendo d f <= 14)%Z.
Proof.
  unfold puntuar_dividendo. destruct d as [d|]; [|lia].
  destruct f as [f|]; [destruct (get_or (has_buyback f) false)|]; cotas_bandas; lia.
Qed.

Lemma dividendo_ajustado_rango cd : (1 <= dividendo_ajustado cd <= 15)%Z.
Proof.
  unfold dividendo_ajustado. pose proof (puntuar_dividendo_rango (dividends cd) (fundamentals cd)).
  destruct (qlt _ _); lia.
Qed.

Lemma puntuar_crecimiento_rango f s : (0 <= puntuar_crecimiento f s <= 15)%Z.
Proof. unfold puntuar_crecimiento. destruct f; cotas_bandas; lia. Qed.

Lemma puntuar_medias_moviles_rango i : (0 <= puntuar_medias_moviles i <= 10)%Z.
Proof. unfold puntuar_medias_moviles. destruct i; [ramas|]; lia. Qed.

Lemma puntuar_osciladores_rango i : (1 <= puntuar_osciladores i <= 10)%Z.
Proof.
  unfold puntuar_osciladores. destruct i as [i|]; [|lia].
  destruct (rsi i), (bollinger i); ramas; cotas_bandas; lia.
Qed.

Lemma puntuar_volumen_rango i : (1 <= puntuar_volumen i <= 5)%Z.
Proof. unfold puntuar_volumen. destruct i; [ramas|]; lia. Qed.

Lemma puntuar_contexto_beta_rango i : (0 <= puntuar_contexto_beta i <= 8)%Z.
Proof. unfold puntuar_contexto_beta. destruct i; cotas_bandas; lia. Qed.

Lemma puntuar_acciones_circulacion_rango sh : (0 <= puntuar_acciones_circulacion sh <= 7)%Z.
Proof. unfold puntuar_acciones_circulacion. destruct sh; [ramas|]; lia. Qed.

(** [calcular_score] never fails; each block of the breakdown stays within
    its bounds (valuation 2..15, dividend 1..15, growth 0..15, strength
    2..15, moving averages 0..10, oscillators 1..10, volume 1..5, beta
    context 0..8, shares 0..7), so the clamp to [1, 100] never changes the
    sum: the total is exactly the sum of the nine blocks, at least 7. *)
Theorem score_suma_exacta (company_data : CompanyData) (indicadores : option Indicadores) :
  exists s, calcular_score company_data indicadores = Ok s /\
    let d := desglose s in
    (2 <= precio_valoracion d <= 15)%Z /\ (1 <= dividendo_retribucion d <= 15)%Z /\
    (0 <= crecimiento d <= 15)%Z /\ (2 <= fortaleza_financiera d <= 15)%Z /\
    (0 <= medias_moviles d <= 10)%Z /\ (1 <= osciladores d <= 10)%Z /\
    (1 <= volumen_puntos d <= 5)%Z /\ (0 <= contexto_beta d <= 8)%Z /\
    (0 <= contexto_acciones d <= 7)%Z /\
    score_total s = (precio_valoracion d + dividendo_retribucion d + crecimiento d
                     + fortaleza_financiera d + medias_moviles d + osciladores d
                     + volumen_puntos d + contexto_beta d + contexto_acciones d)%Z /\
    (7 <= score_total s)%Z.
Proof.
  unfold calcular_score.
  destruct (puntuar_precio_valoracion (fundamentals company_data) (sector company_data)) as [pp|e] eqn:Hp.
  2:{ destruct (puntuar_precio_valoracion_ok (fundamentals company_data) (sector company_data)) as [x Hx].
      congruence. }
  destruct (puntuar_fortaleza_financiera (fundamentals company_data) (sector company_data)) as [pf|e] eqn:Hf.
  2:{ destruct (puntuar_fortaleza_financiera_ok (fundamentals company_data) (sector company_data)) as [x Hx].
      congruence. }
  cbn [bind]. eexists. split; [reflexivity|]. cbn [desglose score_total precio_valoracion
    dividendo_retribucion crecimiento fortaleza_financiera medias_moviles osciladores
    volumen_puntos contexto_beta contexto_acciones].
  apply puntuar_precio_valoracion_rango in Hp. apply puntuar_fortaleza_financiera_rango in Hf.
  pose proof (dividendo_ajustado_rango company_data) as Hd. unfold dividendo_ajustado in Hd.
  pose proof (puntuar_crecimiento_rango (fundamentals company_data) (sector company_data)).
  pose proof (puntuar_medias_moviles_rango indicadores).
  pose proof (puntuar_osciladores_rango indicadores).
  pose proof (puntuar_volumen_rango indicadores).
  pose proof (puntuar_contexto_beta_rango indicadores).
  pose proof (puntuar_acciones_circulacion_rango (shares_data company_data)).
  lia.
Qed.

(** ** The indicator bundle *)

Lemma calcular_bollinger_some l p d : (0 < p <= length l)%nat ->
  exists b, calcular_bollinger l p d = Ok (Some b).
Proof.
  intro Hp. unfold calcular_bollinger.
  replace (length l <? p)%nat with false by (symmetry; apply Nat.ltb_ge; lia).
  destruct (py_last_ok l) as [v Hv]; [lia|]. rewrite Hv. cbn [bind].
  rewrite pdiv_qlen by (rewrite tail_slice_length; lia). cbn [bind].
  rewrite pdiv_qlen by (rewrite length_map, tail_slice_length; lia). cbn [bind].
  eexists. reflexivity.
Qed.

Lemma py_last_last {A : Type} (l : list A) d : l <> [] -> py_last l = Ok (last l d).
Proof.
  intro H. destruct l as [|x r]; [congruence|]. unfold py_last. f_equal.
  apply last_cualquiera. discriminate.
Qed.

Lemma riesgo_largo_no_alto beta rsi vv pos :
  riesgo_largo_plazo (evaluar_riesgos beta rsi vv pos) <> Alto.
Proof.
  apply score_a_nivel_no_alto. unfold riesgo_lp_score.
  destruct (_ && _); [lia|]. destruct (_ && _); lia.
Qed.

(** [calcular_todos_indicadores] returns [None] below 30 bars. From 30 bars
    on it returns a bundle whose price is the last close, whose RSI is
    present and lies in [0, 100], whose Bollinger bands are present, whose
    long-term risk is never "Alto", and whose 50-, 100- and 200-day signals
    are absent below 50, 100 and 200 bars; below 200 bars the entry zone
    always reports insufficient data. *)
Theorem indicadores_completos (datos : list Bar) (beta : Q) :
  ((length datos < 30)%nat -> calcular_todos_indicadores datos beta = Ok None) /\
  ((30 <= length datos)%nat ->
   exists i, calcular_todos_indicadores datos beta = Ok (Some i) /\
     precio_actual i = last (map close datos) 0 /\
     (exists r, rsi i = Some r /\ 0 <= rsi_valor r <= 100) /\
     (exists b, bollinger i = Some b) /\
     riesgo_largo_plazo (riesgos i) <> Alto /\
     ((length datos < 50)%nat -> mm50 i = None) /\
     ((length datos < 100)%nat -> mm100 i = None) /\
     ((length datos < 200)%nat -> mm200 i = None /\
                                  estado (zona_entrada i) = DatosInsuficientes)).
Proof.
  unfold calcular_todos_indicadores. split.
  - intro L. apply Nat.ltb_lt in L. rewrite L. reflexivity.
  - intro L. replace (length datos <? 30)%nat with false by (symmetry; apply Nat.ltb_ge; lia).
    set (precios := map close datos).
    assert (Hlen : length precios = length datos) by apply length_map.
    rewrite (py_last_last precios 0) by (intro C; rewrite C in Hlen; simpl in Hlen; lia).
    cbn [bind].
    destruct (calcular_media_movil_ok precios 50) as (m50 & E50 & N50); [lia|].
    destruct (calcular_media_movil_ok precios 100) as (m100 & E100 & N100); [lia|].
    destruct (calcular_media_movil_ok precios 200) as (m200 & E200 & N200); [lia|].
    rewrite E50, E100, E200. cbn [bind].
    destruct (calcular_rsi_acotado precios) as (r & Er & Hr & _); [lia|]. rewrite Er. cbn [bind].
    destruct (calcular_macd_spec precios) as (m & _ & Em & _). rewrite Em. cbn [bind].
    destruct (calcular_bollinger_some precios 20 2) as [bo Eb]; [lia|]. rewrite Eb. cbn [bind].
    destruct (analizar_volumen_ok datos 30) as [vo Evo]; [lia|]. rewrite Evo. cbn [bind].
    destruct (calcular_zona_entrada_ok precios m200 (Some bo)) as [z Ez]. rewrite Ez. cbn [bind].
    eexists. split; [reflexivity|]. cbn [precio_actual rsi bollinger riesgos mm50 mm100 mm200 zona_entrada].
    split; [reflexivity|].
    split; [eexists; split; [reflexivity | exact Hr]|].
    split; [eexists; reflexivity|].
    split; [apply riesgo_largo_no_alto|].
    split; [intro H; rewrite N50 by lia; reflexivity|].
    split; [intro H; rewrite N100 by lia; reflexivity|].
    intro H. rewrite N200 in Ez |- * by lia. split; [reflexivity|].
    cbn in Ez. injection Ez as <-. reflexivity.
Qed.

(** ** Executive summary *)

Lemma forma_resumen (p1 p2 p3 : Parrafo) (p4 p5 : list Parrafo) (p6 : Frase) :
  p1 <> [] -> p2 <> [] -> (length p4 <= 1)%nat -> (length p5 <= 1)%nat ->
  Forall (fun p => p <> []) p4 -> Forall (fun p => p <> []) p5 ->
  let ps := [p1] ++ (match p2 with [] => [] | _ => [p2] end)
            ++ (match p3 with [] => [] | _ => [p3] end) ++ p4 ++ p5 ++ [[p6]] in
  (3 <= length ps <= 6)%nat /\ Forall (fun p => p <> []) ps /\
  hd_error ps = Some p1 /\ last ps [] = [p6].
Proof.
  intros H1 H2 H4 H5 F4 F5 ps. destruct p2 as [|x2 r2]; [congruence|].
  assert (Hl : forall a b c d e : list Parrafo, last (a ++ b ++ c ++ d ++ e ++ [[p6]]) [] = [p6]).
  { intros. rewrite (app_assoc d), (app_assoc c), (app_assoc b), (app_assoc a).
    apply last_last. }
  split; [|split; [|split; [reflexivity | apply Hl]]].
  - unfold ps. destruct p3; rewrite !length_app; cbn [length]; lia.
  - unfold ps. apply Forall_app; split; [constructor; [exact H1 | constructor]|].
    apply Forall_app; split; [constructor; [discriminate | constructor]|].
    apply Forall_app; split; [destruct p3; repeat constructor; discriminate|].
    apply Forall_app; split; [exact F4|].
    apply Forall_app; split; [exact F5|].
    constructor; [discriminate | constructor].
Qed.

(** [generar_resumen_ejecutivo] fails only with [AttributeError], and it
    fails exactly when the indicator bundle is present but lacks its
    200-day signal or its RSI. When it succeeds it returns 3 to 6
    paragraphs, none empty. The first paragraph opens with the presentation
    sentence, and the last paragraph is the single synthesis sentence for the
    score tier (70 and above, 50 to 69, below 50). *)
Theorem resumen_estructura (company_data : CompanyData) (indicadores : option Indicadores)
  (score_data : Score) :
  (forall e, generar_resumen_ejecutivo company_data indicadores score_data = Err e ->
             e = AttributeError) /\
  (generar_resumen_ejecutivo company_data indicadores score_data = Err AttributeError <->
   exists i, indicadores = Some i /\ (mm200 i = None \/ rsi i = None)) /\
  (forall ps, generar_resumen_ejecutivo company_data indicadores score_data = Ok ps ->
   (3 <= length ps <= 6)%nat /\ Forall (fun p => p <> []) ps /\
   (exists p1, hd_error ps = Some (Presentacion :: p1)) /\
   ((70 <= score_total score_data)%Z -> last ps [] = [SintesisAltaCalidad]) /\
   ((50 <= score_total score_data < 70)%Z -> last ps [] = [SintesisCautela]) /\
   ((score_total score_data < 50)%Z -> last ps [] = [SintesisDesafios])).
Proof.
  unfold generar_resumen_ejecutivo, mm200_encima_de, valor_rsi.
  destruct indicadores as [i|]; [destruct (mm200 i) as [m|] eqn:Hm, (rsi i) as [r|] eqn:Hr|];
    cbn [bind].
  all: split; [intros e E; first [discriminate | injection E as <-; reflexivity]|].
  all: split; [split|].
  all: try (intros _; eexists; split; [reflexivity|]; tauto).
  all: try (intros ps E; discriminate).
  all: try (intro E; discriminate).
  all: try (intros (i' & Ei & C); first [discriminate | injection Ei as <-; destruct C; congruence]).
  all: try (intros _; reflexivity).
  all: intros ps E; apply Ok_inj in E; subst ps.
  all: lazymatch goal with
       | |- context [ [?p1] ++ (match ?p2 with [] => [] | _ :: _ => _ end)
                     ++ (match ?p3 with [] => [] | _ :: _ => _ end) ++ ?p4 ++ ?p5 ++ [[?p6]] ] =>
           destruct (forma_resumen p1 p2 p3 p4 p5 p6) as (L & F & Hh & Hl)
       end.
  all: try discriminate.
  all: try (intro C; apply app_eq_nil in C; destruct C as [_ C]; discriminate).
  all: try (cbn [length]; lia).
  all: try (destruct (truthy _); cbn [length]; lia).
  all: try (apply Forall_nil).
  all: try (constructor; [discriminate | constructor]).
  all: try (destruct (truthy _); repeat constructor; discriminate).
  all: split; [exact L|]; split; [exact F|]; split; [eexists; exact Hh|].
  all: split; [|split]; intro Hs; (eapply eq_trans; [exact Hl|]).
  all: destruct (70 <=? score_total score_data)%Z eqn:S70;
       [|destruct (50 <=? score_total score_data)%Z eqn:S50];
       rewrite ?Z.leb_le, ?Z.leb_gt in *; first [reflexivity | lia].
Qed.

(** ** Risks and opportunities *)

Ltac rama_in H :=
  rewrite !in_app_iff in H;
  repeat match type of H with _ \/ _ => destruct H as [H|H] end;
  match type of H with
  | In _ (if ?c then _ else _) =>
      let Ec := fresh "Ec" in destruct c eqn:Ec; cbn [In] in H; [destruct H as [H|[]] | destruct H]
  end.

Lemma riesgos_detectados_inv cd ind l x :
  riesgos_detectados cd ind = Ok l -> In x l ->
  x <> IncertidumbreMacroeconomica /\
  (forall r, x = RiesgoRsiSobrecompra r -> valor_rsi ind = Ok r /\ 70 < r) /\
  (forall d, x = RiesgoZonaEntrada d -> estado_es (zona_de ind) EsperarRetroceso = true).
Proof.
  unfold riesgos_detectados. destruct (valor_rsi ind) as [v|e] eqn:Ev; cbn [bind]; [|discriminate].
  intros E H. apply Ok_inj in E. subst l.
  rama_in H; subst x; (split; [discriminate|]); split; intros ? Ex; try discriminate.
  - injection Ex as <-. split; [reflexivity | apply qlt_true; exact Ec].
  - first [exact Ec | reflexivity].
Qed.

Lemma oportunidades_detectadas_inv cd ind l x :
  oportunidades_detectadas cd ind = Ok l -> In x l ->
  x <> ExpansionMercadosEmergentes /\
  (forall r, x = OportunidadRsiSobreventa r -> valor_rsi ind = Ok r /\ r < 35) /\
  (x = OportunidadZonaEntrada -> estado_es (zona_de ind) ZonaEntradaActiva = true).
Proof.
  unfold oportunidades_detectadas. destruct (valor_rsi ind) as [v|e] eqn:Ev; cbn [bind]; [|discriminate].
  intros E H. apply Ok_inj in E. subst l.
  rama_in H; subst x; (split; [discriminate|]); split; try (intros ? Ex); try intro Ex; try discriminate.
  - injection Ex as <-. split; [reflexivity | apply qlt_true; exact Ec].
  - first [exact Ec | reflexivity].
Qed.

(** [generar_analisis_completo]: the fallback risk and the fallback
    opportunity only ever appear alone. The analysis never lists both the
    overbought-RSI risk and the oversold-RSI opportunity, nor both the
    entry-zone risk and the entry-zone opportunity. *)
Theorem analisis_sin_contradicciones (company_data : CompanyData) (indicadores : option Indicadores)
  (a : Analisis) (H : generar_analisis_completo company_data indicadores = Ok a) :
  (In IncertidumbreMacroeconomica (lista_riesgos a) ->
   lista_riesgos a = [IncertidumbreMacroeconomica]) /\
  (In ExpansionMercadosEmergentes (oportunidades a) ->
   oportunidades a = [ExpansionMercadosEmergentes]) /\
  ~ (exists r r', In (RiesgoRsiSobrecompra r) (lista_riesgos a) /\
                  In (OportunidadRsiSobreventa r') (oportunidades a)) /\
  ~ ((exists d, In (RiesgoZonaEntrada d) (lista_riesgos a)) /\
     In OportunidadZonaEntrada (oportunidades a)).
Proof.
  unfold generar_analisis_completo in H.
  destruct (calcular_score company_data indicadores) as [s|e]; cbn [bind] in H; [|discriminate].
  destruct (generar_resumen_ejecutivo company_data indicadores s) as [ps|e]; cbn [bind] in H; [|discriminate].
  unfold identificar_riesgos, identificar_oportunidades in H.
  destruct (riesgos_detectados company_data indicadores) as [rl|e] eqn:Er; cbn [bind] in H; [|discriminate].
  destruct (oportunidades_detectadas company_data indicadores) as [ol|e] eqn:Eo; cbn [bind] in H; [|discriminate].
  apply Ok_inj in H. subst a. cbn [lista_riesgos oportunidades].
  assert (Hr : forall x, In x (match rl with [] => [IncertidumbreMacroeconomica] | _ => rl end) ->
                         rl <> [] -> In x rl) by (intros x Hx Hne; destruct rl; [congruence | exact Hx]).
  assert (Ho : forall x, In x (match ol with [] => [ExpansionMercadosEmergentes] | _ => ol end) ->
                         ol <> [] -> In x ol) by (intros x Hx Hne; destruct ol; [congruence | exact Hx]).
  split; [|split; [|split]].
  - intro Hin. destruct rl as [|y rl'] eqn:Erl; [reflexivity|].
    rewrite <- Erl in *. destruct (riesgos_detectados_inv _ _ _ _ Er Hin) as [C _]. congruence.
  - intro Hin. destruct ol as [|y ol'] eqn:Eol; [reflexivity|].
    rewrite <- Eol in *. destruct (oportunidades_detectadas_inv _ _ _ _ Eo Hin) as [C _]. congruence.
  - intros (r & r' & H1 & H2).
    destruct rl as [|y1 rl']; [destruct H1 as [C|[]]; discriminate|].
    destruct ol as [|y2 ol']; [destruct H2 as [C|[]]; discriminate|].
    destruct (riesgos_detectados_inv _ _ _ _ Er H1) as (_ & R1 & _).
    destruct (oportunidades_detectadas_inv _ _ _ _ Eo H2) as (_ & O1 & _).
    destruct (R1 r eq_refl) as [V1 L1]. destruct (O1 r' eq_refl) as [V2 L2].
    rewrite V1 in V2. apply Ok_inj in V2. subst r'. lra.
  - intros [(d & H1) H2].
    destruct rl as [|y1 rl']; [destruct H1 as [C|[]]; discriminate|].
    destruct ol as [|y2 ol']; [destruct H2 as [C|[]]; discriminate|].
    destruct (riesgos_detectados_inv _ _ _ _ Er H1) as (_ & _ & R2).
    destruct (oportunidades_detectadas_inv _ _ _ _ Eo H2) as (_ & _ & O2).
    pose proof (R2 d eq_refl) as Z1. pose proof (O2 eq_refl) as Z2.
    destruct (zona_de indicadores) as [z|]; [|discriminate].
    cbn in Z1, Z2. destruct (estado z); discriminate.
Qed.

Lemma analisis_sin_contradicciones_witness :
  exists a, generar_analisis_completo company_ejemplo None = Ok a /\
  ((In IncertidumbreMacroeconomica (lista_riesgos a) ->
    lista_riesgos a = [IncertidumbreMacroeconomica]) /\
   (In ExpansionMercadosEmergentes (oportunidades a) ->
    oportunidades a = [ExpansionMercadosEmergentes]) /\
   ~ (exists r r', In (RiesgoRsiSobrecompra r) (lista_riesgos a) /\
                   In (OportunidadRsiSobreventa r') (oportunidades a)) /\
   ~ ((exists d, In (RiesgoZonaEntrada d) (lista_riesgos a)) /\
      In OportunidadZonaEntrada (oportunidades a))).
Proof.
  destruct (generar_analisis_completo company_ejemplo None) as [a|e] eqn:E.
  - exists a. split; [reflexivity|]. apply (analisis_sin_contradicciones company_ejemplo None a). exact E.
  - vm_compute in E. discriminate.
Defined.

(** ** RSI of a series without gains *)

Lemma cambios_sin_subida (precios : list Q) :
  (forall i, (S i < length precios)%nat -> nth (S i) precios 0 <= nth i precios 0) ->
  Forall (fun c => c <= 0) (cambios_diarios precios).
Proof.
  induction precios as [|x r IH]; intro H; [constructor|].
  destruct r as [|y r']; [constructor|].
  simpl. constructor.
  - specialize (H O). simpl in H. assert (y <= x) by (apply H; lia). lra.
  - apply IH. intros i Hi. apply (H (S i)). simpl in *. lia.
Qed.

Lemma cambios_bajada_estricta (precios : list Q) :
  (forall i, (S i < length precios)%nat -> nth (S i) precios 0 < nth i precios 0) ->
  Forall (fun c => c < 0) (cambios_diarios precios).
Proof.
  induction precios as [|x r IH]; intro H; [constructor|].
  destruct r as [|y r']; [constructor|].
  simpl. constructor.
  - specialize (H O). simpl in H. assert (y < x) by (apply H; lia). lra.
  - apply IH. intros i Hi. apply (H (S i)). simpl in *. lia.
Qed.

Lemma length_cambios_diarios l : length (cambios_diarios l) = (length l - 1)%nat.
Proof.
  induction l as [|x r IH]; [reflexivity|].
  destruct r as [|y r']; [reflexivity|]. change (S (length (cambios_diarios (y :: r'))) = length (y :: r') - 0)%nat.
  rewrite IH. simpl. lia.
Qed.

Lemma subida_cero c : c <= 0 -> subida c = 0.
Proof. intro H. unfold subida. qcases; [exfalso; lra | reflexivity]. Qed.

Lemma bajada_pos c : c < 0 -> 0 < bajada c.
Proof.
  intro H. unfold bajada. rewrite (qlt_intro c 0 H). rewrite Qabs_neg by lra. lra.
Qed.

Lemma py_sum_crece_aux l acc :
  Forall (fun x => 0 <= x) l -> acc <= fold_left (fun acc x => Qred (acc + x)) l acc.
Proof.
  revert acc. induction l as [|x l IH]; intros acc Hl; simpl; [lra|].
  inversion Hl as [|? ? Hx Hl']; subst.
  eapply Qle_trans; [|apply IH; exact Hl']. rewrite (Qred_correct (acc + x)). lra.
Qed.

Lemma py_sum_pos l : Forall (fun x => 0 < x) l -> l <> [] -> 0 < py_sum l.
Proof.
  intros H Hne. destruct l as [|x l]; [congruence|]. inversion H as [|? ? Hx Hl]; subst.
  unfold py_sum. cbn [fold_left]. eapply Qlt_le_trans; [|apply py_sum_crece_aux].
  - rewrite (Qred_correct (0 + x)). lra.
  - eapply Forall_impl; [|exact Hl]. intros y Hy. cbv beta in Hy. lra.
Qed.

Lemma suavizado_sin_subidas periodo sb a b :
  (1 < periodo)%nat ->
  Forall (fun p => fst p == 0 /\ 0 <= snd p) sb -> a == 0 -> 0 <= b ->
  exists a' b', suavizado_wilder periodo sb a b = Ok (a', b') /\ a' == 0 /\ 0 <= b' /\
    (0 < b -> 0 < b').
Proof.
  intros Hp. assert (Hq : 0 < qnat periodo) by (apply qnat_pos; lia).
  assert (Hq1 : 0 < qnat periodo - 1).
  { unfold qnat. assert (2 <= inject_Z (Z.of_nat periodo)).
    { change 2 with (inject_Z 2). rewrite <- Zle_Qle. lia. }
    lra. }
  revert a b. induction sb as [|[s c] sb IH]; intros a b Hsb Ha Hb.
  - exists a, b. simpl. repeat split; auto.
  - inversion Hsb as [|? ? [Hs Hc] Hsb']; subst. simpl in Hs, Hc.
    simpl. rewrite !pdiv_pos by exact Hq. cbn [bind].
    destruct (IH (Qred ((a * (qnat periodo - 1) + s) / qnat periodo))
                 (Qred ((b * (qnat periodo - 1) + c) / qnat periodo)) Hsb')
      as (a' & b' & E & Ha' & Hb' & Hpos).
    + rewrite (Qred_correct ((a * (qnat periodo - 1) + s) / qnat periodo)), Ha, Hs.
      unfold Qdiv. rewrite Qmult_0_l, Qplus_0_l. apply Qmult_0_l.
    + apply div_nonneg; [|exact Hq]. pose proof (Qmult_le_0_compat _ _ Hb (Qlt_le_weak _ _ Hq1)). lra.
    + exists a', b'. repeat split; auto.
      intro Hb0. apply Hpos. rewrite (Qred_correct ((b * (qnat periodo - 1) + c) / qnat periodo)).
      apply Qlt_shift_div_l; [exact Hq|]. pose proof (Qmult_lt_0_compat _ _ Hb0 Hq1). lra.
Qed.

Lemma rsi_sin_ganancia a b :
  a == 0 -> 0 <= b ->
  rsi_de_promedios (a, b) = Ok (Some (if Qeq_bool b 0 then 100 else 0)).
Proof.
  intros Ha Hb. unfold rsi_de_promedios. destruct (Qeq_bool b 0) eqn:E; [reflexivity|].
  assert (Hb0 : ~ b == 0) by (intro C; apply Qeq_bool_iff in C; congruence).
  rewrite pdiv_nonzero by exact Hb0. cbn [bind].
  assert (Hr : Qred (a / b) = 0).
  { rewrite (Qred_complete (a / b) 0); [reflexivity|]. rewrite Ha. unfold Qdiv. apply Qmult_0_l. }
  rewrite Hr. reflexivity.
Qed.

(** [calcular_rsi] with the default period on at least 15 closes, none
    above its predecessor: with no gain the RSI is 0 or 100 (100 when the
    smoothed average loss is 0). When every close is strictly below its
    predecessor, the RSI is exactly 0. *)
Theorem rsi_sin_subidas (precios : list Q) (H : (15 <= length precios)%nat) :
  ((forall i, (S i < length precios)%nat -> nth (S i) precios 0 <= nth i precios 0) ->
   calcular_rsi precios 14 = Ok (Some 0) \/ calcular_rsi precios 14 = Ok (Some 100)) /\
  ((forall i, (S i < length precios)%nat -> nth (S i) precios 0 < nth i precios 0) ->
   calcular_rsi precios 14 = Ok (Some 0)).
Proof.
  assert (Main : (forall i, (S i < length precios)%nat -> nth (S i) precios 0 <= nth i precios 0) ->
    exists b', calcular_rsi precios 14 = Ok (Some (if Qeq_bool b' 0 then 100 else 0)) /\
      (Forall (fun c => c < 0) (cambios_diarios precios) -> 0 < b')).
  { intro Hn. unfold calcular_rsi.
    replace (length precios <? 14 + 1)%nat with false by (symmetry; apply Nat.ltb_ge; lia).
    unfold promedios_rsi. set (cambios := cambios_diarios precios).
    assert (H14 : 0 < qnat 14) by (apply qnat_pos; lia).
    rewrite !pdiv_pos by exact H14. cbn [bind].
    pose proof (cambios_sin_subida precios Hn) as Hc. fold cambios in Hc.
    assert (Hs0 : Forall (fun x => x == 0) (map subida cambios)).
    { apply Forall_map. eapply Forall_impl; [|exact Hc]. intros c Hc'. rewrite subida_cero by exact Hc'. reflexivity. }
    assert (Hb : Forall (fun x => 0 <= x) (map bajada cambios))
      by (apply Forall_map_intro; apply bajada_nonneg).
    destruct (suavizado_sin_subidas 14
                (skipn 14 (combine (map subida cambios) (map bajada cambios)))
                (Qred (py_sum (tail_slice 14 (map subida cambios)) / qnat 14))
                (Qred (py_sum (tail_slice 14 (map bajada cambios)) / qnat 14)))
      as (a & b & E & Ha & Hb' & Hpos).
    - lia.
    - apply Forall_skipn.
      pose proof (Forall_combine _ _ _ _ Hs0 Hb) as Hcc. exact Hcc.
    - rewrite (Qred_correct (py_sum (tail_slice 14 (map subida cambios)) / qnat 14)).
      rewrite (py_sum_cero _ (Forall_tail_slice _ 14 _ Hs0)). unfold Qdiv. apply Qmult_0_l.
    - apply div_nonneg; [|exact H14]. apply py_sum_nonneg, Forall_tail_slice, Hb.
    - rewrite E. cbn [bind]. exists b. split; [apply rsi_sin_ganancia; assumption|].
      intro Hneg. apply Hpos.
      assert (Hl : length (tail_slice 14 (map bajada cambios)) = 14%nat).
      { apply tail_slice_length. rewrite length_map. unfold cambios.
        rewrite length_cambios_diarios. lia. }
      assert (Hp0 : 0 < py_sum (tail_slice 14 (map bajada cambios))).
      { apply py_sum_pos.
        - apply Forall_tail_slice. apply Forall_map. eapply Forall_impl; [|exact Hneg].
          intros c Hc'. apply bajada_pos. exact Hc'.
        - intro C. rewrite C in Hl. discriminate. }
      rewrite (Qred_correct (py_sum (tail_slice 14 (map bajada cambios)) / qnat 14)).
      apply Qlt_shift_div_l; [exact H14 | lra].
  }
  split.
  - intro Hn. destruct (Main Hn) as (b & E & _). rewrite E.
    destruct (Qeq_bool b 0); [right | left]; reflexivity.
  - intro Hs.
    assert (Hn : forall i, (S i < length precios)%nat -> nth (S i) precios 0 <= nth i precios 0)
      by (intros i Hi; apply Qlt_le_weak, Hs, Hi).
    destruct (Main Hn) as (b & E & Hp). rewrite E.
    assert (Hb0 : 0 < b) by (apply Hp, cambios_bajada_estricta, Hs).
    destruct (Qeq_bool b 0) eqn:Q0; [apply Qeq_bool_iff in Q0; lra | reflexivity].
Qed.

Lemma rsi_sin_subidas_witness :
  (15 <= length (map close historia_bajista))%nat /\
  ((forall i, (S i < length (map close historia_bajista))%nat -> nth (S i) (map close historia_bajista) 0 <= nth i (map close historia_bajista) 0) ->
   calcular_rsi (map close historia_bajista) 14 = Ok (Some 0) \/ calcular_rsi (map close historia_bajista) 14 = Ok (Some 100)) /\
  ((forall i, (S i < length (map close historia_bajista))%nat -> nth (S i) (map close historia_bajista) 0 < nth i (map close historia_bajista) 0) ->
   calcular_rsi (map close historia_bajista) 14 = Ok (Some 0)).
Proof.
  split; [vm_compute; lia|].
  apply (rsi_sin_subidas (map close historia_bajista)). vm_compute; lia.
Defined.

(** ** The analysis pipeline *)

Lemma resumen_ok_iff cd ind sd :
  (exists ps, generar_resumen_ejecutivo cd ind sd = Ok ps) <->
  (forall i, ind = Some i -> mm200 i <> None /\ rsi i <> None).
Proof.
  unfold generar_resumen_ejecutivo, mm200_encima_de, valor_rsi.
  destruct ind as [i|]; [destruct (mm200 i) as [m|] eqn:Hm, (rsi i) as [r|] eqn:Hr|];
    cbn [bind]; split; intro H.
  all: try (intros i' Ei; injection Ei as <-; split; congruence).
  all: try (eexists; reflexivity).
  all: try (destruct H as [ps E]; discriminate).
  all: try (destruct (H i eq_refl); congruence).
Qed.

Lemma resumen_err cd ind sd e :
  generar_resumen_ejecutivo cd ind sd = Err e -> e = AttributeError.
Proof.
  unfold generar_resumen_ejecutivo, mm200_encima_de, valor_rsi.
  destruct ind as [i|]; [destruct (mm200 i), (rsi i)|]; cbn [bind]; intro E;
    first [discriminate | injection E as <-; reflexivity].
Qed.

Lemma analisis_completo_ok_iff cd ind :
  ((exists a, generar_analisis_completo cd ind = Ok a) <->
   (forall i, ind = Some i -> mm200 i <> None /\ rsi i <> None)) /\
  (forall e, generar_analisis_completo cd ind = Err e -> e = AttributeError).
Proof.
  destruct (calcular_score_spec cd ind) as (_ & _ & _ & _ & s & Es & _).
  unfold generar_analisis_completo. rewrite Es. cbn [bind].
  destruct (generar_resumen_ejecutivo cd ind s) as [ps|e] eqn:Eg; cbn [bind].
  - assert (Hi : forall i, ind = Some i -> mm200 i <> None /\ rsi i <> None)
      by (apply (resumen_ok_iff cd ind s); eexists; exact Eg).
    assert (Hv : exists r, valor_rsi ind = Ok r).
    { destruct ind as [i|]; [|eexists; reflexivity]. destruct (Hi i eq_refl) as [_ Hr].
      unfold valor_rsi. destruct (rsi i); [eexists; reflexivity | congruence]. }
    destruct Hv as [r Hv].
    destruct (riesgos_detectados_ok cd ind r Hv) as [rl Er].
    destruct (oportunidades_detectadas_ok cd ind r Hv) as [ol Eo].
    unfold identificar_riesgos, identificar_oportunidades. rewrite Er, Eo. cbn [bind].
    split; [split; [intros _; exact Hi | intros _; eexists; reflexivity]|].
    intros e E. discriminate.
  - split; [split|].
    + intros [a E]. discriminate.
    + intro Hi. exfalso. apply (resumen_ok_iff cd ind s) in Hi. destruct Hi as [ps E]. congruence.
    + intros e' E. injection E as <-. apply (resumen_err cd ind s). exact Eg.
Qed.

Lemma indicadores_forma h b : (30 <= length h)%nat ->
  exists i m200, calcular_todos_indicadores h b = Ok (Some i) /\
    calcular_media_movil (map close h) 200 = Ok m200 /\
    mm200 i = senal_mm (precio_actual i) m200 /\ rsi i <> None.
Proof.
  intro L. unfold calcular_todos_indicadores.
  replace (length h <? 30)%nat with false by (symmetry; apply Nat.ltb_ge; lia).
  set (precios := map close h).
  assert (Hlen : length precios = length h) by apply length_map.
  destruct (py_last_ok precios) as [v Hv]; [lia|]. rewrite Hv. cbn [bind].
  destruct (calcular_media_movil_ok precios 50) as (m50 & E50 & _); [lia|].
  destruct (calcular_media_movil_ok precios 100) as (m100 & E100 & _); [lia|].
  destruct (calcular_media_movil_ok precios 200) as (m200 & E200 & _); [lia|].
  rewrite E50, E100, E200. cbn [bind].
  destruct (calcular_rsi_acotado precios) as (r & Er & _); [lia|]. rewrite Er. cbn [bind].
  destruct (calcular_macd_spec precios) as (m & _ & Em & _). rewrite Em. cbn [bind].
  destruct (calcular_bollinger_ok precios 20 2) as [bo Eb]; [lia|]. rewrite Eb. cbn [bind].
  destruct (analizar_volumen_ok h 30) as [vo Evo]; [lia|]. rewrite Evo. cbn [bind].
  destruct (calcular_zona_entrada_ok precios m200 bo) as [z Ez]. rewrite Ez. cbn [bind].
  do 2 eexists. split; [reflexivity|]. split; [first [exact E200 | reflexivity]|]. split; [reflexivity|]. discriminate.
Qed.

(** The analysis step of [app.py] ([analizar]) succeeds exactly when the
    history has fewer than 30 bars, or when its 200-day moving average
    exists and is not 0 (so at least 200 bars). Otherwise it fails, and the
    only error it ever raises is [AttributeError]. *)
Theorem analizar_exito (company_data : CompanyData) (historical : list Bar) :
  ((exists a, analizar company_data historical = Ok a) <->
   (length historical < 30)%nat \/
   exists v, calcular_media_movil (map close historical) 200 = Ok (Some v) /\ ~ v == 0) /\
  (forall e, analizar company_data historical = Err e -> e = AttributeError).
Proof.
  unfold analizar. set (b := perfil_beta (profile company_data)).
  destruct (Nat.lt_ge_cases (length historical) 30) as [L|L].
  - assert (E : calcular_todos_indicadores historical b = Ok None).
    { unfold calcular_todos_indicadores. apply Nat.ltb_lt in L. rewrite L. reflexivity. }
    rewrite E. cbn [bind]. destruct (analisis_completo_ok_iff company_data None) as [[_ Hc] He].
    split; [|exact He]. split; [intros _; left; exact L|].
    intros _. apply Hc. intros i Ei. discriminate.
  - destruct (indicadores_forma historical b L) as (i & m200 & E & Em & Hm & Hr).
    rewrite E. cbn [bind]. destruct (analisis_completo_ok_iff company_data (Some i)) as [Hc He].
    split; [|exact He]. rewrite Hc. split.
    + intro H. right. destruct (H i eq_refl) as [Hm' _]. rewrite Hm in Hm'.
      destruct m200 as [v|]; [|contradiction]. exists v. split; [exact Em|].
      unfold senal_mm in Hm'. destruct (truthy v) eqn:T; [|contradiction].
      unfold truthy in T. intro C. apply Qeq_bool_iff in C. rewrite C in T. discriminate.
    + intros [C|(v & Ev & Hv)]; [lia|]. intros i' Ei. injection Ei as <-.
      split; [|exact Hr]. rewrite Hm. rewrite Em in Ev. injection Ev as ->.
      unfold senal_mm. destruct (truthy v) eqn:T; [discriminate|].
      unfold truthy in T. apply negb_false_iff, Qeq_bool_iff in T. contradiction.
Qed.
